(** * Sample Superstore dashboard (dashboard.py)

    A shallow embedding of the data pipeline of the Streamlit script:
    column validation, the date-range filter, the cascading
    Region / State / City sidebar filter and the three group-by-sum views
    (category, region, month).

    Modelling choices.
    - A [DataFrame] is the list of its rows, in index order; [df[mask]] is
      [select mask df].  A cell of a categorical column is an
      [option string], [None] being pandas' NaN.
    - [Order Date] after [pd.to_datetime(..., errors="coerce")] is an
      [option Timestamp], [None] being NaT.  A timestamp is kept as its
      calendar fields; pandas compares timestamps as instants, which on
      calendar fields is the lexicographic order.
    - [Sales] is an exact number ([Z]); rounding of binary floating point is
      not modelled.  No property below rests on a law of addition: two sums
      are equated only when they are taken over the same rows in the same
      order, and what a view sums is stated on the rows of its groups.
    - [st.stop()] ends the run: the script is a computation in the [Run]
      monad, [Stop] carrying what [st.error] / [st.warning] displayed.
    - The widgets are inputs: [st.date_input] gives [date1], [date2] and
      [st.sidebar.multiselect] gives the lists [region], [state], [city].
    - The two loaders are modelled over what pandas, the upload and the
      file system provide (the readers, the file name, [path.exists()],
      [path.suffix]); a reader returns a frame or raises, and an exception
      raised is a [Raise] of [Result]. *)

From Stdlib Require Import ZArith List String Ascii DecimalString DecimalN
  Permutation.
From stdpp Require Import base decidable option list strings gmap sorting.

Open Scope string_scope.
Open Scope Z_scope.

(** ** Strings: Python's [sorted] and [str.join] *)

(** Python orders [str] values by code point, character by character. *)
Definition str_le (a b : string) : Prop := String.leb a b = true.

Global Instance str_le_dec : RelDecision str_le :=
  λ a b, decide (String.leb a b = true).

Definition sorted (l : list string) : list string := merge_sort str_le l.

Definition join (sep : string) (l : list string) : string := String.concat sep l.

(** Truth value of a Python list or set: non-empty. *)
Definition truthy {A} (l : list A) : bool :=
  match l with [] => false | _ :: _ => true end.

(** ** Timestamps and monthly periods *)

Inductive Month :=
  | Jan | Feb | Mar | Apr | May | Jun | Jul | Aug | Sep | Oct | Nov | Dec.

Definition month_number (m : Month) : Z :=
  match m with
  | Jan => 1 | Feb => 2 | Mar => 3 | Apr => 4 | May => 5 | Jun => 6
  | Jul => 7 | Aug => 8 | Sep => 9 | Oct => 10 | Nov => 11 | Dec => 12
  end.

(** [%b]: the abbreviated month name. *)
Definition month_abbr (m : Month) : string :=
  match m with
  | Jan => "Jan" | Feb => "Feb" | Mar => "Mar" | Apr => "Apr"
  | May => "May" | Jun => "Jun" | Jul => "Jul" | Aug => "Aug"
  | Sep => "Sep" | Oct => "Oct" | Nov => "Nov" | Dec => "Dec"
  end.

(** [ts_time] counts the nanoseconds since midnight. *)
Record Timestamp := {
  ts_year : Z;
  ts_month : Month;
  ts_day : Z;
  ts_time : Z
}.

(** A calendar date at midnight, what [pd.to_datetime] makes of a date. *)
Definition midnight (y : Z) (m : Month) (d : Z) : Timestamp :=
  {| ts_year := y; ts_month := m; ts_day := d; ts_time := 0 |}.

Definition lex (c d : comparison) : comparison :=
  match c with Eq => d | _ => c end.

Definition ts_compare (a b : Timestamp) : comparison :=
  lex (ts_year a ?= ts_year b)
    (lex (month_number (ts_month a) ?= month_number (ts_month b))
       (lex (ts_day a ?= ts_day b) (ts_time a ?= ts_time b))).

(** [a > b], [a >= b] and [a <= b] on timestamps. *)
Definition ts_gtb (a b : Timestamp) : bool :=
  match ts_compare a b with Gt => true | _ => false end.
Definition ts_geb (a b : Timestamp) : bool :=
  match ts_compare a b with Lt => false | _ => true end.
Definition ts_leb (a b : Timestamp) : bool :=
  match ts_compare a b with Gt => false | _ => true end.

Definition ts_lt (a b : Timestamp) : Prop := ts_compare a b = Lt.
Definition ts_le (a b : Timestamp) : Prop := ts_compare a b ≠ Gt.

(** [.dt.to_period("M")] *)
Record Period := { p_year : Z; p_month : Month }.

Definition to_period_M (t : Timestamp) : Period :=
  {| p_year := ts_year t; p_month := ts_month t |}.

(** [%Y]: the year in decimal (four digits over the range of a pandas
    timestamp, 1677 to 2262). *)
Definition fmt_year (y : Z) : string :=
  NilEmpty.string_of_uint (N.to_uint (Z.to_N y)).

(** [.dt.strftime("%Y-%b")] *)
Definition strftime_Y_b (p : Period) : string :=
  fmt_year (p_year p) ++ "-" ++ month_abbr (p_month p).

(** The order of the months in time: by year, then by month. *)
Definition period_compare (p q : Period) : comparison :=
  lex (p_year p ?= p_year q)
    (month_number (p_month p) ?= month_number (p_month q)).

(** No character of the string is a hyphen. *)
Fixpoint no_dash (s : string) : Prop :=
  match s with
  | EmptyString => True
  | String c s => c ≠ "-"%char ∧ no_dash s
  end.

(** ** Rows and data frames *)

Record Row := {
  OrderDate : option Timestamp;
  Region : option string;
  State : option string;
  City : option string;
  Category : option string;
  Sales : Z
}.

Definition DataFrame := list Row.

Definition Mask := Row → bool.

(** [df[mask]] *)
Definition select (mask : Mask) (df : DataFrame) : DataFrame :=
  List.filter mask df.

(** [m1 & m2] *)
Definition mask_and (m1 m2 : Mask) : Mask := λ r, m1 r && m2 r.
Infix "&&&" := mask_and (at level 40, left associativity).

(** [df[col].isin(values)]: a NaN cell is in no list of strings. *)
Definition isin (col : Row → option string) (values : list string) : Mask :=
  λ r, match col r with
       | Some v => bool_decide (v ∈ values)
       | None => false
       end.

(** [df[col].notna()] *)
Definition notna {A} (col : Row → option A) : Mask :=
  λ r, match col r with Some _ => true | None => false end.

(** [df.dropna(subset=[col])] *)
Definition dropna {A} (col : Row → option A) (df : DataFrame) : DataFrame :=
  select (notna col) df.

(** [sorted(df[col].dropna().unique())]; the order in which [unique] lists
    the values is lost in [sorted]. *)
Definition sorted_unique (col : Row → option string) (df : DataFrame)
  : list string :=
  sorted (remove_dups (omap col df)).

(** [df["Sales"].sum()] *)
Definition sum_sales (df : DataFrame) : Z :=
  foldr (λ r acc, Sales r + acc) 0 df.

(** ** The run of the script *)

Inductive Alert :=
  | Error (msg : string)      (* st.error(msg) *)
  | Warning (msg : string).   (* st.warning(msg) *)

Inductive Run (A : Type) :=
  | Continue (a : A)
  | Stop (shown : Alert).     (* st.stop() *)
Arguments Continue {A} a.
Arguments Stop {A} shown.

Global Instance Run_ret : MRet Run := λ A a, Continue a.
Global Instance Run_bind : MBind Run := λ A B f m,
  match m with
  | Continue a => f a
  | Stop shown => Stop shown
  end.

(** ** Basic validations (lines 76-83) *)

Definition required_cols : gset string :=
  list_to_set ["Order Date"; "Region"; "State"; "City"; "Category"; "Sales"].

(** [required_cols - set(df.columns)] *)
Definition missing (columns : list string) : gset string :=
  required_cols ∖ list_to_set columns.

Definition missing_message (names : list string) : string :=
  "Your dataset is missing columns: " ++ join ", " names ++ ". " ++
  "Please upload the correct Superstore file.".

Definition validate (columns : list string) : Run unit :=
  let missing := missing columns in
  if truthy (elements missing)
  then Stop (Error (missing_message (sorted (elements missing))))
  else Continue ().

(** [sub in text]: the string [sub] occurs in [text]. *)
Definition occurs_in (sub text : string) : Prop :=
  ∃ pre post, text = pre ++ sub ++ post.

Fixpoint starts_with (sub text : string) : bool :=
  match sub, text with
  | EmptyString, _ => true
  | String a sub, String b text => Ascii.eqb a b && starts_with sub text
  | String _ _, EmptyString => false
  end.

Fixpoint occurs_inb (sub text : string) : bool :=
  starts_with sub text ||
  match text with
  | EmptyString => false
  | String _ text => occurs_inb sub text
  end.

(** ** Date filter (lines 89-105) *)

Definition invalid_range_message : string :=
  "Start date is after end date. Adjust the date range.".

(** [(df["Order Date"] >= date1) & (df["Order Date"] <= date2)]; a
    comparison with NaT is false. *)
Definition in_range (date1 date2 : Timestamp) : Mask :=
  λ r, match OrderDate r with
       | Some d => ts_geb d date1 && ts_leb d date2
       | None => false
       end.

Definition date_filter (df : DataFrame) (date1 date2 : Timestamp)
  : Run DataFrame :=
  let df := dropna OrderDate df in
  if ts_gtb date1 date2
  then Stop (Warning invalid_range_message)
  else Continue (select (in_range date1 date2) df).

(** ** Sidebar filters (lines 110-141) *)

Definition region_options (df : DataFrame) : list string :=
  sorted_unique Region df.

Definition df2 (df : DataFrame) (region : list string) : DataFrame :=
  if negb (truthy region) then df else select (isin Region region) df.

Definition state_options (df : DataFrame) (region : list string)
  : list string :=
  sorted_unique State (df2 df region).

Definition df3 (df : DataFrame) (region state : list string) : DataFrame :=
  let df2 := df2 df region in
  if negb (truthy state) then df2 else select (isin State state) df2.

Definition city_options (df : DataFrame) (region state : list string)
  : list string :=
  sorted_unique City (df3 df region state).

Definition filtered_df (df : DataFrame) (region state city : list string)
  : DataFrame :=
  let df3 := df3 df region state in
  if negb (truthy region) && negb (truthy state) && negb (truthy city) then
    df
  else if negb (truthy state) && negb (truthy city) then
    select (isin Region region) df
  else if negb (truthy region) && negb (truthy city) then
    select (isin State state) df
  else if truthy state && truthy city then
    select (isin State state &&& isin City city) df3
  else if truthy region && truthy city then
    select (isin Region region &&& isin City city) df3
  else if truthy region && truthy state then
    select (isin Region region &&& isin State state) df3
  else if truthy city then
    select (isin City city) df3
  else
    select (isin Region region &&& isin State state &&& isin City city) df3.

(** What the sidebar shows and yields in one run: the three lists of
    options offered and the filtered frame. *)
Record Sidebar := {
  sb_region_options : list string;
  sb_state_options : list string;
  sb_city_options : list string;
  sb_filtered_df : DataFrame
}.

Definition sidebar (df : DataFrame) (region state city : list string)
  : Sidebar :=
  {| sb_region_options := region_options df;
     sb_state_options := state_options df region;
     sb_city_options := city_options df region state;
     sb_filtered_df := filtered_df df region state city |}.

(** ** Charts (lines 144, 160, 192-199) *)

(** [df.groupby(key)["Sales"].sum()] with pandas' defaults [sort=True] and
    [dropna=True]: one row per distinct non-null key, in ascending order of
    the keys, holding the sum of [Sales] over the rows of that key. *)
Definition has_key (key : Row → option string) (k : string) : Mask :=
  λ r, bool_decide (key r = Some k).

Definition groupby_sum (key : Row → option string) (df : DataFrame)
  : list (string * Z) :=
  (λ k, (k, sum_sales (select (has_key key k) df)))
    <$> sorted (remove_dups (omap key df)).

Definition category_df (filtered_df : DataFrame) : list (string * Z) :=
  groupby_sum Category filtered_df.

Definition region_sum (filtered_df : DataFrame) : list (string * Z) :=
  groupby_sum Region filtered_df.

(** [filtered_df["month_year"].dt.strftime("%Y-%b")], with
    [month_year = filtered_df["Order Date"].dt.to_period("M")]. *)
Definition month_year_label (r : Row) : option string :=
  strftime_Y_b <$> (to_period_M <$> OrderDate r).

Definition linechart (filtered_df : DataFrame) : list (string * Z) :=
  groupby_sum month_year_label filtered_df.

(** The rows that the groups of a view sum: the rows of the frame that hold
    the key of the first row of the view, then those of the second, and so
    on. *)
Definition grouped_rows (key : Row → option string)
    (view : list (string * Z)) (df : DataFrame) : list Row :=
  mjoin ((λ g, select (has_key key g.1) df) <$> view).

(** Sum of the [Sales] column of a view. *)
Definition view_total (view : list (string * Z)) : Z :=
  foldr (λ g acc, g.2 + acc) 0 view.

(** ** The whole script *)

Record Views := {
  v_sidebar : Sidebar;
  v_category_df : list (string * Z);
  v_region_sum : list (string * Z);
  v_linechart : list (string * Z)
}.

(** [date1] and [date2] are what the two date inputs return.  The inputs
    are drawn around [startdate] and [enddate] (lines 92-98), so there is
    such a pair only when some row of the frame has an order date. *)
Definition dashboard (columns : list string) (df : DataFrame)
    (date1 date2 : Timestamp) (region state city : list string) : Run Views :=
  _ ← validate columns;
  df ← date_filter df date1 date2;
  let sb := sidebar df region state city in
  let filtered_df := sb_filtered_df sb in
  mret {| v_sidebar := sb;
          v_category_df := category_df filtered_df;
          v_region_sum := region_sum filtered_df;
          v_linechart := linechart filtered_df |}.

(** ** The reference filter of the specification

    The single conjunctive predicate: a row is kept when, for each of the
    three dimensions, the selection is empty or holds the row's value. *)

Definition is_empty (sel : list string) : bool :=
  match sel with [] => true | _ => false end.

Definition member (v : option string) (sel : list string) : bool :=
  match v with
  | Some s => bool_decide (s ∈ sel)
  | None => false
  end.

Definition conjunctive_predicate (R S C : list string) (row : Row) : bool :=
  (is_empty R || member (Region row) R) &&
  (is_empty S || member (State row) S) &&
  (is_empty C || member (City row) C).

Definition reference_filter (D : DataFrame) (R S C : list string)
  : DataFrame :=
  List.filter (conjunctive_predicate R S C) D.

(** ** Sample data: the three-row data set of the specification *)

Definition mk_row (d : Timestamp) (region state city category : string)
    (sales : Z) : Row :=
  {| OrderDate := Some d; Region := Some region; State := Some state;
     City := Some city; Category := Some category; Sales := sales |}.

Definition sample : DataFrame :=
  [ mk_row (midnight 2024 Jan 15) "East" "NY" "NYC" "Furniture" 100;
    mk_row (midnight 2024 Feb 10) "West" "CA" "LA" "Tech" 200;
    mk_row (midnight 2024 Jan 20) "East" "NY" "NYC" "Tech" 50 ].

Definition all_columns : list string :=
  ["Row ID"; "Order Date"; "Region"; "State"; "City"; "Category"; "Sales"].

(** A row whose category and region are missing. *)
Definition null_row : Row :=
  {| OrderDate := Some (midnight 2024 Jan 15); Region := None;
     State := Some "NY"; City := Some "NYC"; Category := None;
     Sales := 100 |}.

(** ** Default date range (lines 92-98) *)

Definition ts_min (a b : Timestamp) : Timestamp := if ts_leb a b then a else b.
Definition ts_max (a b : Timestamp) : Timestamp := if ts_leb a b then b else a.

(** [Series.min()] and [Series.max()] of a column of timestamps without
    NaT; NaT ([None]) when the column is empty. *)
Definition series_min (col : list Timestamp) : option Timestamp :=
  match col with
  | [] => None
  | t :: ts => Some (foldl ts_min t ts)
  end.

Definition series_max (col : list Timestamp) : option Timestamp :=
  match col with
  | [] => None
  | t :: ts => Some (foldl ts_max t ts)
  end.

Definition startdate (df : DataFrame) : option Timestamp :=
  series_min (omap OrderDate (dropna OrderDate df)).

Definition enddate (df : DataFrame) : option Timestamp :=
  series_max (omap OrderDate (dropna OrderDate df)).

(** [pd.to_datetime(st.date_input(label, value))] when the user leaves the
    widget alone: the widget holds the calendar date of [value], which
    [pd.to_datetime] turns into that day at midnight. *)
Definition date_input_default (value : Timestamp) : Timestamp :=
  midnight (ts_year value) (ts_month value) (ts_day value).

(** ** Data loading helpers (lines 21-62) *)

(** [str.lower()], on the letters A to Z. *)
Definition lower_char (c : ascii) : ascii :=
  let n := N_of_ascii c in
  if ((65 <=? n) && (n <=? 90))%N then ascii_of_N (n + 32) else c.

Fixpoint lower (s : string) : string :=
  match s with
  | EmptyString => EmptyString
  | String c s => String (lower_char c) (lower s)
  end.

(** [s.endswith(suffix)] *)
Definition endswith (s suffix : string) : bool :=
  bool_decide
    (list_ascii_of_string suffix `suffix_of` list_ascii_of_string s).

Inductive Engine := openpyxl | xlrd.

(** [OtherError] stands for what a reader of pandas raises on its own
    account (a parser error, an [XLRDError], ...). *)
Inductive Exception :=
  | ValueError (msg : string)
  | FileNotFoundError (msg : string)
  | OtherError (kind msg : string).

Inductive Result (A : Type) :=
  | Return (a : A)
  | Raise (e : Exception).
Arguments Return {A} a.
Arguments Raise {A} e.

Global Instance Result_ret : MRet Result := λ A a, Return a.
Global Instance Result_bind : MBind Result := λ A B f m,
  match m with
  | Return a => f a
  | Raise e => Raise e
  end.
Global Instance Result_fmap : FMap Result := λ A B f m,
  match m with
  | Return a => Return (f a)
  | Raise e => Raise e
  end.

Definition unsupported_message : string :=
  "Unsupported file type. Please upload csv/txt/xlsx/xls.".

Definition not_found_message (path : string) : string :=
  "Fallback file not found at " ++ path ++ ". " ++
  "Upload a file or add the dataset to your repo under 'data/Superstore.xlsx'.".

Section loaders.
(** What pandas, the upload and the file system provide: a [Source] is an
    uploaded file or a path, a [Frame] a data frame as read.  A reader
    returns the frame or raises an exception of its own. *)
Context {Source Frame : Type}.
Variable name : Source → string.           (* file.name *)
Variable path_str : Source → string.       (* str(path) *)
Variable exists_ : Source → bool.          (* path.exists() *)
Variable suffix : Source → string.         (* path.suffix *)
Variable read_csv : Source → Result Frame. (* encoding="ISO-8859-1" *)
Variable read_excel : Source → Engine → Result Frame.
Variable columns : Frame → list string.    (* df.columns *)
(** [df["Order Date"] = pd.to_datetime(df["Order Date"], errors="coerce")] *)
Variable coerce_order_date : Frame → Frame.

(** Ensure Order Date is datetime. *)
Definition ensure_order_date (df : Frame) : Frame :=
  if bool_decide ("Order Date" ∈ columns df) then coerce_order_date df else df.

Definition load_uploaded_file (file : Source) : Result Frame :=
  let name := lower (name file) in
  df ← (if endswith name ".csv" || endswith name ".txt" then
          read_csv file
        else if endswith name ".xlsx" then
          read_excel file openpyxl
        else if endswith name ".xls" then
          read_excel file xlrd
        else
          Raise (ValueError unsupported_message));
  mret (ensure_order_date df).

Definition load_fallback_file (path : Source) : Result Frame :=
  if negb (exists_ path) then
    Raise (FileNotFoundError (not_found_message (path_str path)))
  else
    df ← (if String.eqb (lower (suffix path)) ".xlsx" then
            read_excel path openpyxl
          else if String.eqb (lower (suffix path)) ".xls" then
            read_excel path xlrd
          else
            read_csv path);
    mret (ensure_order_date df).

(** Load data (lines 68-72): the upload when there is one, else the bundled
    file. *)
Definition load_data (uploaded : option Source) (DATA_FALLBACK : Source)
  : Result Frame :=
  match uploaded with
  | Some file => load_uploaded_file file
  | None => load_fallback_file DATA_FALLBACK
  end.
End loaders.

Global Instance Month_eq_dec : EqDecision Month.
Proof. solve_decision. Defined.

Global Instance Period_eq_dec : EqDecision Period.
Proof. solve_decision. Defined.

(** The rows whose order date falls in the month [p]. *)
Definition in_month (p : Period) : Mask :=
  λ r, bool_decide (to_period_M <$> OrderDate r = Some p).

(** A check, run year by year over the four-digit years: [%Y] has four
    characters and the text of a year is before the text of the next. *)
Definition year_step_ok (y : Z) : bool :=
  (String.length (fmt_year y) =? 4)%nat &&
  (String.length (fmt_year (y + 1)) =? 4)%nat &&
  String.ltb (fmt_year y) (fmt_year (y + 1)).

Fixpoint year_steps_from (count : nat) (y : Z) : bool :=
  match count with
  | O => true
  | S count => year_step_ok y && year_steps_from count (y + 1)
  end.

Definition year_steps_ok : bool := year_steps_from (Z.to_nat 8999) 1000.

(** * Properties *)

(** ** Strings *)

Lemma append_String (c : ascii) (s t : string) :
  String c s ++ t = String c (s ++ t).
Proof. reflexivity. Qed.

Lemma append_empty (t : string) : "" ++ t = t.
Proof. reflexivity. Qed.

Lemma starts_with_spec (sub text : string) :
  starts_with sub text = true ↔ ∃ post, text = sub ++ post.
Proof.
  revert text. induction sub as [|a sub IH]; intros text.
  - split; [|done]. intros _. by exists text.
  - destruct text as [|b text]; simpl.
    + split; [done|]. by intros [post E].
    + rewrite andb_true_iff, Ascii.eqb_eq, IH. split.
      * intros [-> [post ->]]. by exists post.
      * intros [post E]. rewrite append_String in E.
        injection E as -> ->. eauto.
Qed.

Lemma occurs_inb_spec (sub text : string) :
  occurs_inb sub text = true ↔ occurs_in sub text.
Proof.
  unfold occurs_in. induction text as [|b text IH]; simpl.
  - rewrite orb_false_r, starts_with_spec. split.
    + intros [post E]. by exists "", post.
    + intros ([|??] & post & E); [|done]. by exists post.
  - rewrite orb_true_iff, starts_with_spec, IH. split.
    + intros [[post E]|(pre & post & E)].
      * by exists "", post.
      * exists (String b pre), post. by rewrite append_String, E.
    + intros ([|c pre] & post & E).
      * left. by exists post.
      * right. rewrite append_String in E. injection E as -> E. eauto.
Qed.

(** ** Masks and selection *)

Lemma select_select (m1 m2 : Mask) (df : DataFrame) :
  select m1 (select m2 df) = select (m2 &&& m1) df.
Proof.
  unfold select, mask_and.
  induction df as [|r df IH]; simpl; [done|].
  destruct (m2 r); simpl; [destruct (m1 r)|]; by rewrite IH.
Qed.

Lemma select_ext (m1 m2 : Mask) (df : DataFrame) :
  (∀ r, m1 r = m2 r) → select m1 df = select m2 df.
Proof. intros E. apply List.filter_ext, E. Qed.

Lemma select_true (m : Mask) (df : DataFrame) :
  (∀ r, r ∈ df → m r = true) → select m df = df.
Proof.
  induction df as [|r df IH]; intros H; simpl; [done|].
  rewrite (H r) by left. f_equal. apply IH. intros r' ?. apply H. by right.
Qed.

Lemma elem_of_select (m : Mask) (df : DataFrame) (r : Row) :
  r ∈ select m df ↔ r ∈ df ∧ m r = true.
Proof. unfold select. rewrite !list_elem_of_In. apply filter_In. Qed.

Lemma isin_member (col : Row → option string) (values : list string) r :
  isin col values r = member (col r) values.
Proof. done. Qed.

Lemma isin_true (col : Row → option string) (values : list string) r :
  isin col values r = true ↔ ∃ v, col r = Some v ∧ v ∈ values.
Proof.
  unfold isin. destruct (col r) as [v|].
  - rewrite bool_decide_eq_true. split; [eauto|].
    by intros (v' & [= <-] & ?).
  - split; [done|]. by intros (v & ? & _).
Qed.

(** The eight branches of [filtered_df] all compute the selection by the
    conjunctive predicate. *)
Lemma filtered_df_conjunctive df region state city :
  filtered_df df region state city =
  select (conjunctive_predicate region state city) df.
Proof.
  unfold filtered_df, df3, df2.
  destruct region as [|r0 region], state as [|s0 state], city as [|c0 city];
    cbn [truthy negb andb]; rewrite ?select_select;
    try (apply select_ext; intros r;
         unfold conjunctive_predicate, mask_and; cbn [is_empty orb];
         rewrite ?isin_member;
         repeat match goal with |- context [member ?v ?l] =>
                  destruct (member v l) end; reflexivity).
  symmetry. by apply select_true.
Qed.

Lemma conjunctive_predicate_true R S C row :
  conjunctive_predicate R S C row = true ↔
  (R = [] ∨ ∃ v, Region row = Some v ∧ v ∈ R) ∧
  (S = [] ∨ ∃ v, State row = Some v ∧ v ∈ S) ∧
  (C = [] ∨ ∃ v, City row = Some v ∧ v ∈ C).
Proof.
  unfold conjunctive_predicate.
  rewrite !andb_true_iff, !orb_true_iff.
  change (member (Region row) R) with (isin Region R row).
  change (member (State row) S) with (isin State S row).
  change (member (City row) C) with (isin City C row).
  rewrite !isin_true.
  assert (E : ∀ l : list string, is_empty l = true ↔ l = []).
  { intros [|??]; simpl; naive_solver. }
  rewrite !E. tauto.
Qed.

(** ** The hierarchical filter *)

(** C1. For every data set and every three selections, each possibly empty,
    the case-split filter of the script returns the rows (in the same order)
    that the single conjunctive predicate keeps:
    (R empty or region in R) and (S empty or state in S) and
    (C empty or city in C). *)
Theorem filtered_df_refines_reference (D : DataFrame) (R S C : list string) :
  filtered_df D R S C = reference_filter D R S C.
Proof. apply filtered_df_conjunctive. Qed.

(** C7. Filtering the filtered frame again with the same three selections
    changes nothing. *)
Theorem filtered_df_idempotent (D : DataFrame) (R S C : list string) :
  filtered_df (filtered_df D R S C) R S C = filtered_df D R S C.
Proof.
  rewrite !filtered_df_conjunctive. apply select_true.
  intros r Hr. by apply elem_of_select in Hr as [_ ?].
Qed.

(** C8. With the three selections empty the filter returns the frame as it
    is: the same rows in the same order. *)
Theorem filtered_df_identity (D : DataFrame) :
  filtered_df D [] [] [] = D.
Proof. reflexivity. Qed.

(** C9. With a non-empty Region selection, whatever the State and City
    selections are, every row of the result has a region that is in the
    selection, and a row of the frame whose region is null or not in the
    selection is not in the result. *)
Theorem filtered_df_region_sound (D : DataFrame) (R S C : list string) :
  R ≠ [] →
  (∀ row, row ∈ filtered_df D R S C →
          ∃ v, Region row = Some v ∧ v ∈ R) ∧
  (∀ row, row ∈ D → Region row = None → row ∉ filtered_df D R S C) ∧
  (∀ row v, row ∈ D → Region row = Some v → v ∉ R →
            row ∉ filtered_df D R S C).
Proof.
  intros HR. rewrite filtered_df_conjunctive.
  assert (K : ∀ row, row ∈ select (conjunctive_predicate R S C) D →
                     ∃ v, Region row = Some v ∧ v ∈ R).
  { intros row [_ H]%elem_of_select.
    apply conjunctive_predicate_true in H as [[?|?] _]; done. }
  split; [exact K|]. split.
  - intros row _ E Hin. destruct (K row Hin) as (v & ? & _). congruence.
  - intros row v _ E Hv Hin. destruct (K row Hin) as (v' & ? & ?). congruence.
Qed.

Lemma filtered_df_region_sound_witness :
  ["East"] ≠ [] ∧
  (∀ row, row ∈ filtered_df sample ["East"] [] ["NYC"] →
          ∃ v, Region row = Some v ∧ v ∈ ["East"]).
Proof.
  split; [done|].
  apply (filtered_df_region_sound sample ["East"] [] ["NYC"]). done.
Defined.

(** ** Order of timestamps *)

Lemma lex_opp c d : CompOpp (lex c d) = lex (CompOpp c) (CompOpp d).
Proof. by destruct c. Qed.

Lemma ts_compare_refl a : ts_compare a a = Eq.
Proof. unfold ts_compare. by rewrite !Z.compare_refl. Qed.

Lemma ts_compare_antisym a b : ts_compare a b = CompOpp (ts_compare b a).
Proof.
  unfold ts_compare. rewrite !lex_opp.
  by rewrite <- !Z.compare_antisym.
Qed.

Lemma ts_gtb_true a b : ts_gtb a b = true ↔ ts_lt b a.
Proof.
  unfold ts_gtb, ts_lt. rewrite (ts_compare_antisym b a).
  destruct (ts_compare a b); simpl; split; congruence.
Qed.

Lemma ts_gtb_false a b : ts_gtb a b = false ↔ ts_le a b.
Proof.
  unfold ts_gtb, ts_le. destruct (ts_compare a b); split; congruence.
Qed.

Lemma ts_leb_true a b : ts_leb a b = true ↔ ts_le a b.
Proof.
  unfold ts_leb, ts_le. destruct (ts_compare a b); split; congruence.
Qed.

Lemma ts_geb_true a b : ts_geb a b = true ↔ ts_le b a.
Proof.
  unfold ts_geb, ts_le. rewrite (ts_compare_antisym b a).
  destruct (ts_compare a b); simpl; split; congruence.
Qed.

Lemma ts_le_refl a : ts_le a a.
Proof. unfold ts_le. by rewrite ts_compare_refl. Qed.

Lemma ts_lt_not_le a b : ts_lt a b → ¬ ts_le b a.
Proof.
  unfold ts_lt, ts_le. rewrite (ts_compare_antisym b a).
  intros ->. simpl. auto.
Qed.

(** ** The date filter *)

Lemma in_range_true date1 date2 r :
  in_range date1 date2 r = true ↔
  ∃ d, OrderDate r = Some d ∧ ts_le date1 d ∧ ts_le d date2.
Proof.
  unfold in_range. destruct (OrderDate r) as [d|].
  - rewrite andb_true_iff, ts_geb_true, ts_leb_true. split.
    + intros [??]. by exists d.
    + by intros (d' & [= <-] & ? & ?).
  - split; [done|]. by intros (d & ? & _).
Qed.

Lemma elem_of_dropna {A} (col : Row → option A) df r :
  r ∈ dropna col df ↔ r ∈ df ∧ is_Some (col r).
Proof.
  unfold dropna, notna. rewrite elem_of_select.
  destruct (col r); split; intros [? H]; split; try done; by inversion H.
Qed.

Lemma date_filter_stop df date1 date2 :
  ts_lt date2 date1 →
  date_filter df date1 date2 = Stop (Warning invalid_range_message).
Proof.
  intros H%ts_gtb_true. unfold date_filter. by rewrite H.
Qed.

Lemma date_filter_continue df date1 date2 :
  ts_le date1 date2 →
  date_filter df date1 date2 =
  Continue (select (in_range date1 date2) (dropna OrderDate df)).
Proof.
  intros H%ts_gtb_false. unfold date_filter. by rewrite H.
Qed.

Lemma elem_of_date_filter df date1 date2 out r :
  date_filter df date1 date2 = Continue out →
  r ∈ out ↔
  r ∈ df ∧ ∃ d, OrderDate r = Some d ∧ ts_le date1 d ∧ ts_le d date2.
Proof.
  unfold date_filter. destruct (ts_gtb date1 date2); [done|].
  intros [= <-]. rewrite elem_of_select, elem_of_dropna, in_range_true.
  split.
  - by intros [[? _] ?].
  - intros [? (d & E & ?)]. repeat split; eauto.
Qed.

(** C4. When the start date is after the end date the date filter stops
    the run with the warning (and so does the whole script once the columns
    are there): nothing is filtered and the bounds are not swapped.
    Otherwise it continues with the rows of the frame whose order date is
    not null and lies between the two bounds, both included: a row dated
    exactly at the start or at the end is kept, a row dated before the start
    or after the end (by one unit or more) is not, and a row with a null
    order date is dropped first and is never kept. *)
Theorem date_filter_inclusive_range (df : DataFrame) (date1 date2 : Timestamp) :
  (ts_lt date2 date1 →
     date_filter df date1 date2 = Stop (Warning invalid_range_message) ∧
     ∀ columns region state city,
       validate columns = Continue () →
       dashboard columns df date1 date2 region state city =
       Stop (Warning invalid_range_message)) ∧
  (ts_le date1 date2 →
     ∃ out,
       date_filter df date1 date2 = Continue out ∧
       out = select (in_range date1 date2) (dropna OrderDate df) ∧
       (∀ r, r ∈ dropna OrderDate df → is_Some (OrderDate r)) ∧
       (∀ r, r ∈ out ↔
             r ∈ df ∧
             ∃ d, OrderDate r = Some d ∧ ts_le date1 d ∧ ts_le d date2) ∧
       (∀ r, r ∈ df → OrderDate r = Some date1 → r ∈ out) ∧
       (∀ r, r ∈ df → OrderDate r = Some date2 → r ∈ out) ∧
       (∀ r d, OrderDate r = Some d → ts_lt d date1 → r ∉ out) ∧
       (∀ r d, OrderDate r = Some d → ts_lt date2 d → r ∉ out) ∧
       (∀ r, OrderDate r = None → r ∉ out)).
Proof.
  split.
  - intros Hgt. split; [by apply date_filter_stop|].
    intros columns region state city Hv. unfold dashboard.
    rewrite Hv. simpl. by rewrite date_filter_stop.
  - intros Hle. eexists. split; [by apply date_filter_continue|].
    pose proof (λ r, elem_of_date_filter df date1 date2 _ r
                       (date_filter_continue df date1 date2 Hle)) as K.
    split; [done|]. split; [by intros r [_ ?]%elem_of_dropna|].
    split; [exact K|]. repeat split.
    + intros r Hr E. apply K. split; [done|]. exists date1.
      auto using ts_le_refl.
    + intros r Hr E. apply K. split; [done|]. exists date2.
      auto using ts_le_refl.
    + intros r d E Hlt [_ (d' & E' & Hd & _)]%K.
      rewrite E in E'. injection E' as <-. by apply (ts_lt_not_le d date1).
    + intros r d E Hlt [_ (d' & E' & _ & Hd)]%K.
      rewrite E in E'. injection E' as <-. by apply (ts_lt_not_le date2 d).
    + intros r E [_ (d & E' & _)]%K. congruence.
Qed.

Lemma date_filter_inclusive_range_witness :
  (ts_lt (midnight 2024 Feb 1) (midnight 2024 Feb 28) ∧
   date_filter sample (midnight 2024 Feb 28) (midnight 2024 Feb 1) =
   Stop (Warning invalid_range_message)) ∧
  (ts_le (midnight 2024 Feb 1) (midnight 2024 Feb 28) ∧
   ∃ out, date_filter sample (midnight 2024 Feb 1) (midnight 2024 Feb 28) =
          Continue out).
Proof.
  split.
  - split; [reflexivity|].
    apply (date_filter_inclusive_range
             sample (midnight 2024 Feb 28) (midnight 2024 Feb 1)).
    reflexivity.
  - split; [discriminate|].
    destruct (proj2 (date_filter_inclusive_range
                       sample (midnight 2024 Feb 1) (midnight 2024 Feb 28)))
      as (out & E & _); [discriminate|].
    by exists out.
Defined.

(** ** Sorting without duplicates *)

Global Instance str_le_total : Total str_le.
Proof. intros a b. apply String.leb_total. Qed.

Lemma elem_of_sorted (l : list string) v : v ∈ sorted l ↔ v ∈ l.
Proof. unfold sorted. by rewrite merge_sort_Permutation. Qed.

Lemma NoDup_sorted (l : list string) : NoDup l → NoDup (sorted l).
Proof. unfold sorted. by rewrite merge_sort_Permutation. Qed.

Lemma Sorted_sorted (l : list string) : Sorted str_le (sorted l).
Proof. apply Sorted_merge_sort, _. Qed.

Lemma elem_of_sorted_unique (col : Row → option string) df v :
  v ∈ sorted_unique col df ↔ ∃ r, r ∈ df ∧ col r = Some v.
Proof.
  unfold sorted_unique.
  rewrite elem_of_sorted, elem_of_remove_dups, list_elem_of_omap.
  done.
Qed.

Lemma NoDup_sorted_unique (col : Row → option string) df :
  NoDup (sorted_unique col df).
Proof. apply NoDup_sorted, NoDup_remove_dups. Qed.

(** ** Validation of the columns *)

Lemma elem_of_missing columns c :
  c ∈ missing columns ↔ c ∈ required_cols ∧ c ∉ columns.
Proof. unfold missing. by rewrite elem_of_difference, elem_of_list_to_set. Qed.

Lemma truthy_true {A} (l : list A) x : x ∈ l → truthy l = true.
Proof. by destruct 1. Qed.

Lemma NoDup_all_same {A} (l : list A) a :
  NoDup l → l ≠ [] → (∀ x, x ∈ l → x = a) → l = [a].
Proof.
  destruct l as [|x [|y l]]; intros Hnd Hne Hall; [done| |].
  - f_equal. apply Hall. by left.
  - exfalso. apply NoDup_cons in Hnd as [Hx _]. apply Hx.
    rewrite (Hall x) by left.
    rewrite (Hall y) by (right; left). by left.
Qed.

Lemma missing_filter (columns : list string) :
  missing columns =
  list_to_set
    (List.filter (λ c, negb (bool_decide (c ∈ columns)))
       ["Order Date"; "Region"; "State"; "City"; "Category"; "Sales"]).
Proof.
  apply set_eq. intros c.
  rewrite elem_of_missing, elem_of_list_to_set.
  unfold required_cols. rewrite elem_of_list_to_set.
  rewrite !list_elem_of_In, filter_In, negb_true_iff, bool_decide_eq_false.
  by rewrite !list_elem_of_In.
Qed.

(** The text of the error mentions the required columns that are absent and
    no other required column. *)
Lemma missing_message_mentions (columns : list string) (c : string) :
  c ∈ required_cols →
  occurs_in c (missing_message (sorted (elements (missing columns)))) ↔
  c ∉ columns.
Proof.
  intros Hc. unfold required_cols in Hc. apply elem_of_list_to_set in Hc.
  rewrite <- occurs_inb_spec, missing_filter. cbn [List.filter].
  destruct (bool_decide_reflect ("Order Date" ∈ columns));
    destruct (bool_decide_reflect ("Region" ∈ columns));
    destruct (bool_decide_reflect ("State" ∈ columns));
    destruct (bool_decide_reflect ("City" ∈ columns));
    destruct (bool_decide_reflect ("Category" ∈ columns));
    destruct (bool_decide_reflect ("Sales" ∈ columns));
    cbn [negb];
    repeat (apply elem_of_cons in Hc as [->|Hc]);
    try (by apply not_elem_of_nil in Hc);
    (split; [intros H; first [assumption | by vm_compute in H]
            |intros H; first [by vm_compute | contradiction]]).
Qed.

(** C5. When the loaded frame lacks a required column, validation stops the
    run with an error whose message lists the absent required columns: each
    of them, once, and nothing else, and the text shown mentions every
    required column that is absent and none that is present; the whole
    script stops there with that error, whatever the other inputs.  When
    Sales is the only required column that is absent, the list is exactly
    ["Sales"]. *)
Theorem validate_names_missing_columns (columns : list string) :
  (∃ c, c ∈ required_cols ∧ c ∉ columns) →
  ∃ names,
    validate columns = Stop (Error (missing_message names)) ∧
    (∀ c, c ∈ names ↔ c ∈ required_cols ∧ c ∉ columns) ∧
    NoDup names ∧
    (∀ c, c ∈ required_cols →
          occurs_in c (missing_message names) ↔ c ∉ columns) ∧
    (∀ df date1 date2 region state city,
       dashboard columns df date1 date2 region state city =
       Stop (Error (missing_message names))) ∧
    ((∀ c, c ∈ required_cols → c ∉ columns → c = "Sales") →
     names = ["Sales"] ∧
     missing_message names =
     "Your dataset is missing columns: Sales. Please upload the correct Superstore file.").
Proof.
  intros (c & Hreq & Habs).
  assert (Hc : c ∈ elements (missing columns)).
  { apply elem_of_elements, elem_of_missing. done. }
  assert (Hv : validate columns =
               Stop (Error (missing_message
                              (sorted (elements (missing columns)))))).
  { unfold validate. by rewrite (truthy_true _ _ Hc). }
  assert (Hin : ∀ x, x ∈ sorted (elements (missing columns)) ↔
                     x ∈ required_cols ∧ x ∉ columns).
  { intros x. by rewrite elem_of_sorted, elem_of_elements, elem_of_missing. }
  assert (Hnd : NoDup (sorted (elements (missing columns)))).
  { apply NoDup_sorted, NoDup_elements. }
  exists (sorted (elements (missing columns))).
  split; [done|]. split; [done|]. split; [done|].
  split; [apply missing_message_mentions|]. split.
  - intros. unfold dashboard. by rewrite Hv.
  - intros Honly.
    assert (E : sorted (elements (missing columns)) = ["Sales"]).
    { apply NoDup_all_same; [done| |].
      - intros E. assert (Hs : c ∈ sorted (elements (missing columns))).
        { by apply Hin. }
        rewrite E in Hs. by apply not_elem_of_nil in Hs.
      - intros x [??]%Hin. by apply Honly. }
    by rewrite E.
Qed.

Lemma validate_names_missing_columns_witness :
  (∃ c, c ∈ required_cols ∧
        c ∉ ["Order Date"; "Region"; "State"; "City"; "Category"]) ∧
  ∃ names,
    validate ["Order Date"; "Region"; "State"; "City"; "Category"] =
    Stop (Error (missing_message names)).
Proof.
  assert (H : ∃ c, c ∈ required_cols ∧
                   c ∉ ["Order Date"; "Region"; "State"; "City"; "Category"]).
  { exists "Sales". split; [by vm_compute|].
    intros H. by repeat (apply elem_of_cons in H as [H|H]; [done|]);
      apply not_elem_of_nil in H. }
  split; [exact H|].
  destruct (validate_names_missing_columns
              ["Order Date"; "Region"; "State"; "City"; "Category"] H)
    as (names & E & _).
  by exists names.
Defined.

(** ** Options offered in the sidebar *)

(** C6. The options offered for State are the distinct non-null states of
    the frame filtered by the Region selection alone, and the options
    offered for City are the distinct non-null cities of the frame filtered
    by the Region and State selections; neither list depends on the City
    selection, and the Region options depend on no selection at all. *)
Theorem cascading_options (df : DataFrame) (region state : list string) :
  state_options df region = sorted_unique State (filtered_df df region [] []) ∧
  NoDup (state_options df region) ∧
  (∀ v, v ∈ state_options df region ↔
        ∃ r, r ∈ reference_filter df region [] [] ∧ State r = Some v) ∧
  city_options df region state =
    sorted_unique City (filtered_df df region state []) ∧
  NoDup (city_options df region state) ∧
  (∀ v, v ∈ city_options df region state ↔
        ∃ r, r ∈ reference_filter df region state [] ∧ City r = Some v) ∧
  (∀ state' city city',
     sb_region_options (sidebar df region state city) =
       sb_region_options (sidebar df region state' city') ∧
     sb_state_options (sidebar df region state city) =
       sb_state_options (sidebar df region state' city') ∧
     sb_city_options (sidebar df region state city) =
       sb_city_options (sidebar df region state city')).
Proof.
  assert (E2 : df2 df region = filtered_df df region [] []).
  { unfold df2, filtered_df, df3, df2. by destruct region. }
  assert (E3 : df3 df region state = filtered_df df region state []).
  { rewrite filtered_df_conjunctive. unfold df3, df2.
    destruct region, state; cbn [truthy negb]; rewrite ?select_select;
      try (apply select_ext; intros r;
           unfold conjunctive_predicate, mask_and; cbn [is_empty orb];
           rewrite ?isin_member;
           repeat match goal with |- context [member ?v ?l] =>
                    destruct (member v l) end; reflexivity).
    symmetry. by apply select_true. }
  unfold state_options, city_options. rewrite E2, E3.
  split; [done|]. split; [apply NoDup_sorted_unique|].
  split.
  { intros v. rewrite elem_of_sorted_unique.
    by rewrite filtered_df_conjunctive. }
  split; [done|]. split; [apply NoDup_sorted_unique|].
  split.
  { intros v. rewrite elem_of_sorted_unique.
    by rewrite filtered_df_conjunctive. }
  done.
Qed.

(** ** Group-by sums *)

Section groupby.
Variable key : Row → option string.

Lemma isin_cons (k : string) (ks : list string) (r : Row) :
  isin key (k :: ks) r = has_key key k r || isin key ks r.
Proof.
  unfold isin, has_key. destruct (key r) as [v|]; [|done].
  destruct (decide (v = k)) as [->|Hne].
  - rewrite (bool_decide_eq_true_2 (Some k = Some k)) by done.
    by rewrite (bool_decide_eq_true_2 (k ∈ k :: ks)) by left.
  - rewrite (bool_decide_eq_false_2 (Some v = Some k)) by congruence.
    apply bool_decide_ext. rewrite elem_of_cons. tauto.
Qed.

Lemma has_key_not_isin (k : string) (ks : list string) (r : Row) :
  k ∉ ks → has_key key k r = true → isin key ks r = false.
Proof.
  unfold isin, has_key. intros Hk E%bool_decide_eq_true. rewrite E.
  by apply bool_decide_eq_false_2.
Qed.

Lemma select_isin_split (k : string) (ks : list string) (df : DataFrame) :
  k ∉ ks →
  select (isin key (k :: ks)) df ≡ₚ
  select (has_key key k) df ++ select (isin key ks) df.
Proof.
  intros Hk. induction df as [|r df IH]; [done|].
  unfold select in *. cbn [List.filter]. rewrite isin_cons.
  pose proof (has_key_not_isin k ks r Hk) as Hx.
  destruct (has_key key k r), (isin key ks r); cbn [orb].
  - by specialize (Hx eq_refl).
  - simpl. by constructor.
  - rewrite <- Permutation_middle. by constructor.
  - done.
Qed.

Lemma select_isin_nil (df : DataFrame) : select (isin key []) df = [].
Proof.
  unfold select. induction df as [|r df IH]; [done|]. simpl.
  unfold isin at 1. destruct (key r); [|done].
  by rewrite bool_decide_eq_false_2 by apply not_elem_of_nil.
Qed.

Lemma groups_of_keys (ks : list string) (df : DataFrame) :
  NoDup ks →
  mjoin ((λ k, select (has_key key k) df) <$> ks) ≡ₚ
  select (isin key ks) df.
Proof.
  induction 1 as [|k ks Hk Hnd IH].
  - by rewrite select_isin_nil.
  - rewrite select_isin_split by done. cbn [fmap list_fmap mjoin list_join].
    by rewrite IH.
Qed.

Lemma isin_keys_notna (df : DataFrame) :
  select (isin key (sorted (remove_dups (omap key df)))) df = dropna key df.
Proof.
  unfold dropna, select. apply List.filter_ext_in. intros r Hr.
  unfold isin, notna. destruct (key r) as [v|] eqn:E; [|done].
  apply bool_decide_eq_true_2.
  rewrite elem_of_sorted, elem_of_remove_dups, list_elem_of_omap.
  exists r. by rewrite list_elem_of_In.
Qed.

(** Each row of the view holds the sum over the rows of its key. *)
Lemma groupby_sum_values (df : DataFrame) :
  groupby_sum key df =
  (λ g, (g.1, sum_sales (select (has_key key g.1) df))) <$> groupby_sum key df.
Proof. unfold groupby_sum. by rewrite <- list_fmap_compose. Qed.

(** The groups of the view are, together, the rows that have a key, each
    once. *)
Lemma grouped_rows_groupby_sum (df : DataFrame) :
  grouped_rows key (groupby_sum key df) df ≡ₚ dropna key df.
Proof.
  unfold grouped_rows, groupby_sum. rewrite <- list_fmap_compose.
  rewrite <- isin_keys_notna. apply groups_of_keys.
  apply NoDup_sorted, NoDup_remove_dups.
Qed.

Lemma dropna_all (df : DataFrame) :
  (∀ r, r ∈ df → is_Some (key r)) → dropna key df = df.
Proof.
  intros H. apply select_true. intros r [v E]%H. unfold notna. by rewrite E.
Qed.

Lemma omap_dropna (df : DataFrame) : omap key (dropna key df) = omap key df.
Proof.
  unfold dropna, select, notna.
  induction df as [|r df IH]; [done|]. cbn [List.filter omap list_omap].
  destruct (key r) as [v|] eqn:E.
  - cbn [omap list_omap]. rewrite E. f_equal. apply IH.
  - apply IH.
Qed.

Lemma has_key_dropna (k : string) (df : DataFrame) :
  select (has_key key k) (dropna key df) = select (has_key key k) df.
Proof.
  unfold dropna. rewrite select_select. apply select_ext. intros r.
  unfold mask_and, notna, has_key. destruct (key r); [done|].
  by rewrite bool_decide_eq_false_2.
Qed.

Lemma groupby_sum_dropna (df : DataFrame) :
  groupby_sum key (dropna key df) = groupby_sum key df.
Proof.
  unfold groupby_sum. rewrite omap_dropna.
  apply list_fmap_ext. intros _ k _. by rewrite has_key_dropna.
Qed.

Lemma elem_of_groupby_sum (df : DataFrame) (k : string) (v : Z) :
  (k, v) ∈ groupby_sum key df ↔
  (∃ r, r ∈ df ∧ key r = Some k) ∧
  v = sum_sales (select (has_key key k) df).
Proof.
  unfold groupby_sum. rewrite list_elem_of_fmap.
  setoid_rewrite elem_of_sorted. setoid_rewrite elem_of_remove_dups.
  setoid_rewrite list_elem_of_omap. split.
  - intros (k' & [= <- ->] & H). done.
  - intros [H ->]. by exists k.
Qed.

Lemma groupby_sum_keys (df : DataFrame) :
  (groupby_sum key df).*1 = sorted (remove_dups (omap key df)).
Proof.
  unfold groupby_sum. rewrite <- list_fmap_compose.
  rewrite <- (list_fmap_id (sorted _)) at 2. done.
Qed.

(** One row per distinct key, in ascending order of the keys as strings. *)
Lemma groupby_sum_keys_NoDup (df : DataFrame) : NoDup (groupby_sum key df).*1.
Proof. rewrite groupby_sum_keys. apply NoDup_sorted, NoDup_remove_dups. Qed.

Lemma groupby_sum_keys_Sorted (df : DataFrame) :
  Sorted str_le (groupby_sum key df).*1.
Proof. rewrite groupby_sum_keys. apply Sorted_sorted. Qed.

Lemma null_key_in_no_group (df : DataFrame) (r : Row) (k : string) :
  key r = None → r ∉ select (has_key key k) df.
Proof.
  intros E [_ H]%elem_of_select. unfold has_key in H.
  apply bool_decide_eq_true in H. congruence.
Qed.
End groupby.

(** ** Labels of the months *)

Lemma month_abbr_inj m1 m2 : month_abbr m1 = month_abbr m2 → m1 = m2.
Proof. destruct m1, m2; (reflexivity || discriminate). Qed.

Lemma fmt_year_inj y1 y2 :
  0 ≤ y1 → 0 ≤ y2 → fmt_year y1 = fmt_year y2 → y1 = y2.
Proof.
  unfold fmt_year. intros H1 H2 E.
  apply Z2N.inj; [done..|].
  rewrite <- (DecimalN.Unsigned.of_to (Z.to_N y1)).
  rewrite <- (DecimalN.Unsigned.of_to (Z.to_N y2)).
  f_equal.
  assert (Some (N.to_uint (Z.to_N y1)) = Some (N.to_uint (Z.to_N y2))) as [=];
    [|done].
  rewrite <- !NilEmpty.usu. by rewrite E.
Qed.

Lemma string_of_uint_no_dash (d : Decimal.uint) :
  no_dash (NilEmpty.string_of_uint d).
Proof. induction d; simpl; by auto. Qed.

Lemma app_dash_inj (s1 s2 t1 t2 : string) :
  no_dash s1 → no_dash s2 →
  s1 ++ "-" ++ t1 = s2 ++ "-" ++ t2 → s1 = s2 ∧ t1 = t2.
Proof.
  revert s2. induction s1 as [|c s1 IH]; intros [|c2 s2];
    rewrite ?append_String, ?append_empty.
  - by intros _ _ [= ->].
  - intros _ [Hc _] [= E _]. by destruct Hc.
  - intros [Hc _] _ [= E _]. by destruct Hc.
  - intros [_ H1] [_ H2] [= -> E]. destruct (IH s2 H1 H2 E) as [-> ->]. done.
Qed.

(** Over the years of our era two months have the same label only when
    they are the same month of the same year. *)
Lemma strftime_Y_b_inj (p q : Period) :
  0 ≤ p_year p → 0 ≤ p_year q →
  strftime_Y_b p = strftime_Y_b q → p = q.
Proof.
  destruct p as [y1 m1], q as [y2 m2]. unfold strftime_Y_b. simpl.
  intros H1 H2 E.
  apply app_dash_inj in E as [Ey Em];
    [|apply string_of_uint_no_dash..].
  apply fmt_year_inj in Ey; [|done..]. apply month_abbr_inj in Em.
  by subst.
Qed.

Lemma month_year_label_eq (r1 r2 : Row) (d1 d2 : Timestamp) :
  OrderDate r1 = Some d1 → OrderDate r2 = Some d2 →
  0 ≤ ts_year d1 → 0 ≤ ts_year d2 →
  month_year_label r1 = month_year_label r2 ↔
  to_period_M d1 = to_period_M d2.
Proof.
  unfold month_year_label. intros -> -> H1 H2. simpl. split.
  - intros [= E]. by apply strftime_Y_b_inj.
  - by intros ->.
Qed.

(** ** The three views *)

Lemma month_year_label_is_Some (r : Row) :
  is_Some (month_year_label r) ↔ is_Some (OrderDate r).
Proof.
  unfold month_year_label. destruct (OrderDate r); simpl; split;
    intros [? ?]; by eauto.
Qed.

Lemma filtered_df_subseteq df region state city r :
  r ∈ filtered_df df region state city → r ∈ df.
Proof. rewrite filtered_df_conjunctive. by intros [? _]%elem_of_select. Qed.

Lemma dashboard_continue columns df date1 date2 region state city v :
  dashboard columns df date1 date2 region state city = Continue v →
  ∃ df', date_filter df date1 date2 = Continue df' ∧
         v_sidebar v = sidebar df' region state city ∧
         v_category_df v = category_df (filtered_df df' region state city) ∧
         v_region_sum v = region_sum (filtered_df df' region state city) ∧
         v_linechart v = linechart (filtered_df df' region state city).
Proof.
  unfold dashboard. destruct (validate columns); [|done]. simpl.
  destruct (date_filter df date1 date2) as [df'|]; [|done]. simpl.
  intros [= <-]. by exists df'.
Qed.

(** C3, as the script has it. In a run of the script that reaches the
    charts, every row of the Category view holds the sum of Sales over the
    rows of its category, and these groups are, taken together, the rows of
    the filtered frame whose category is not null, each once: all the rows
    of the filtered frame when none has a null category.  Likewise for the
    Region view.  The groups of the time-series view are, taken together,
    all the rows of the filtered frame, each once: the date filter has
    dropped the rows without an order date.  (The sums are floating-point
    sums in the script; that the sums of a view add up to one total to the
    last digit is not stated.) *)
Theorem views_account_for_rows (columns : list string) (df : DataFrame)
    (date1 date2 : Timestamp) (region state city : list string) (v : Views) :
  dashboard columns df date1 date2 region state city = Continue v →
  let fdf := sb_filtered_df (v_sidebar v) in
  (v_category_df v =
     (λ g, (g.1, sum_sales (select (has_key Category g.1) fdf)))
       <$> v_category_df v ∧
   grouped_rows Category (v_category_df v) fdf ≡ₚ dropna Category fdf) ∧
  (v_region_sum v =
     (λ g, (g.1, sum_sales (select (has_key Region g.1) fdf)))
       <$> v_region_sum v ∧
   grouped_rows Region (v_region_sum v) fdf ≡ₚ dropna Region fdf) ∧
  (v_linechart v =
     (λ g, (g.1, sum_sales (select (has_key month_year_label g.1) fdf)))
       <$> v_linechart v ∧
   grouped_rows month_year_label (v_linechart v) fdf ≡ₚ fdf) ∧
  ((∀ r, r ∈ fdf → is_Some (Category r)) →
   grouped_rows Category (v_category_df v) fdf ≡ₚ fdf) ∧
  ((∀ r, r ∈ fdf → is_Some (Region r)) →
   grouped_rows Region (v_region_sum v) fdf ≡ₚ fdf).
Proof.
  intros (df' & Hd & -> & -> & -> & ->)%dashboard_continue.
  cbn [sidebar sb_filtered_df].
  unfold category_df, region_sum, linechart.
  split; [|split; [|split; [|split]]].
  - split; [apply groupby_sum_values|apply grouped_rows_groupby_sum].
  - split; [apply groupby_sum_values|apply grouped_rows_groupby_sum].
  - split; [apply groupby_sum_values|].
    rewrite grouped_rows_groupby_sum. rewrite dropna_all; [done|].
    intros r Hr%filtered_df_subseteq. apply month_year_label_is_Some.
    apply (elem_of_date_filter _ _ _ _ r Hd) in Hr as [_ (d & -> & _)].
    by eexists.
  - intros H. by rewrite grouped_rows_groupby_sum, dropna_all.
  - intros H. by rewrite grouped_rows_groupby_sum, dropna_all.
Qed.

Lemma views_account_for_rows_witness :
  ∃ v, dashboard all_columns (null_row :: sample)
         (midnight 2024 Jan 1) (midnight 2024 Dec 31) [] [] [] =
       Continue v ∧
       grouped_rows Category (v_category_df v) (sb_filtered_df (v_sidebar v))
       ≡ₚ dropna Category (sb_filtered_df (v_sidebar v)).
Proof.
  eexists. split; [vm_compute; reflexivity|].
  eapply (views_account_for_rows all_columns (null_row :: sample)
            (midnight 2024 Jan 1) (midnight 2024 Dec 31) [] [] []).
  vm_compute. reflexivity.
Defined.

(** C3 as stated fails with a null category or region: the row is in the
    filtered frame and in its total, and in no group of the view. *)
Lemma conservation_fails_on_null_keys :
  let fdf := filtered_df (null_row :: sample) [] [] [] in
  sum_sales fdf = 450 ∧
  view_total (category_df fdf) = 350 ∧
  view_total (region_sum fdf) = 350 ∧
  view_total (category_df fdf) ≠ sum_sales fdf ∧
  view_total (region_sum fdf) ≠ sum_sales fdf.
Proof. vm_compute. repeat split; discriminate. Qed.

(** C10. A row with a null category is in no group of the Category view,
    and a row with a null region in no group of the Region view: every row
    of a view has a key that some row of the frame holds, its sum is over
    the rows holding exactly that key, and the view is the one of the frame
    without the rows whose key is null. *)
Theorem null_keys_omitted (fdf : DataFrame) :
  category_df fdf = category_df (dropna Category fdf) ∧
  region_sum fdf = region_sum (dropna Region fdf) ∧
  (∀ k v, (k, v) ∈ category_df fdf ↔
          (∃ r, r ∈ fdf ∧ Category r = Some k) ∧
          v = sum_sales (select (has_key Category k) fdf)) ∧
  (∀ k v, (k, v) ∈ region_sum fdf ↔
          (∃ r, r ∈ fdf ∧ Region r = Some k) ∧
          v = sum_sales (select (has_key Region k) fdf)) ∧
  (∀ r k, Category r = None →
          r ∉ select (has_key Category k) fdf) ∧
  (∀ r k, Region r = None →
          r ∉ select (has_key Region k) fdf).
Proof.
  unfold category_df, region_sum.
  rewrite !groupby_sum_dropna.
  split; [done|]. split; [done|].
  split; [intros; apply elem_of_groupby_sum|].
  split; [intros; apply elem_of_groupby_sum|].
  split; intros; by apply null_key_in_no_group.
Qed.

(** C2, what the script does. The time-series view of the sample data
    lists February 2024 before January 2024, although January comes first
    in time: the groups are keyed by the label ["%Y-%b"] and come out in
    the order of the labels as strings. *)
Theorem linechart_orders_by_label :
  period_compare {| p_year := 2024; p_month := Jan |}
                 {| p_year := 2024; p_month := Feb |} = Lt ∧
  strftime_Y_b {| p_year := 2024; p_month := Jan |} = "2024-Jan" ∧
  strftime_Y_b {| p_year := 2024; p_month := Feb |} = "2024-Feb" ∧
  linechart (filtered_df sample [] [] []) =
    [("2024-Feb", 200); ("2024-Jan", 150)] ∧
  ∃ v, dashboard all_columns sample
         (midnight 2024 Jan 1) (midnight 2024 Dec 31) [] [] [] = Continue v ∧
       v_linechart v = [("2024-Feb", 200); ("2024-Jan", 150)].
Proof.
  split; [reflexivity|].
  split; [reflexivity|]. split; [reflexivity|]. split; [by vm_compute|].
  eexists. split; [vm_compute; reflexivity|]. reflexivity.
Qed.

(** In general the time-series view has one row per distinct label (hence,
    by [month_year_label_eq], per distinct month of a year), in ascending
    order of the labels as strings. *)
Lemma linechart_labels (fdf : DataFrame) :
  NoDup (linechart fdf).*1 ∧
  Sorted str_le (linechart fdf).*1 ∧
  ∀ l, l ∈ (linechart fdf).*1 ↔
       ∃ r, r ∈ fdf ∧ month_year_label r = Some l.
Proof.
  unfold linechart. split; [apply groupby_sum_keys_NoDup|].
  split; [apply groupby_sum_keys_Sorted|].
  intros l. rewrite groupby_sum_keys.
  by rewrite elem_of_sorted, elem_of_remove_dups, list_elem_of_omap.
Qed.

(** ** The scenarios of the specification, run on the model *)

Example scenario_region_east :
  filtered_df sample ["East"] [] [] =
    [ mk_row (midnight 2024 Jan 15) "East" "NY" "NYC" "Furniture" 100;
      mk_row (midnight 2024 Jan 20) "East" "NY" "NYC" "Tech" 50 ] ∧
  category_df (filtered_df sample ["East"] [] []) =
    [("Furniture", 100); ("Tech", 50)] ∧
  linechart (filtered_df sample ["East"] [] []) = [("2024-Jan", 150)].
Proof. by vm_compute. Qed.

Example scenario_february :
  ∃ v, dashboard all_columns sample
         (midnight 2024 Feb 1) (midnight 2024 Feb 28) [] [] [] = Continue v ∧
       sb_filtered_df (v_sidebar v) =
         [ mk_row (midnight 2024 Feb 10) "West" "CA" "LA" "Tech" 200 ] ∧
       v_region_sum v = [("West", 200)].
Proof. eexists. split; [vm_compute; reflexivity|]. by vm_compute. Qed.

(** The days next to the bounds: the last of January and the first of March
    are out, the first and the last of February are in. *)
Example scenario_bounds :
  let on d := mk_row d "East" "NY" "NYC" "Tech" 1 in
  date_filter
    [ on (midnight 2024 Jan 31); on (midnight 2024 Feb 1);
      on (midnight 2024 Feb 29); on (midnight 2024 Mar 1) ]
    (midnight 2024 Feb 1) (midnight 2024 Feb 29) =
  Continue [ on (midnight 2024 Feb 1); on (midnight 2024 Feb 29) ].
Proof. by vm_compute. Qed.

Example scenario_missing_sales :
  validate ["Order Date"; "Region"; "State"; "City"; "Category"] =
  Stop (Error (missing_message ["Sales"])).
Proof. by vm_compute. Qed.

(** * Further properties of the script *)

(** ** The filter as a sub-sequence *)

Lemma select_sublist (m : Mask) (df : DataFrame) : select m df `sublist_of` df.
Proof.
  unfold select. induction df as [|r df IH]; simpl; [constructor|].
  destruct (m r); by constructor.
Qed.

Lemma select_sublist_mono (m1 m2 : Mask) (df : DataFrame) :
  (∀ r, m1 r = true → m2 r = true) →
  select m1 df `sublist_of` select m2 df.
Proof.
  intros H. unfold select. induction df as [|r df IH]; simpl; [constructor|].
  destruct (m1 r) eqn:E1.
  - rewrite (H r E1). by constructor.
  - destruct (m2 r); [by constructor|done].
Qed.

(** X1. The filtered frame is a sub-sequence of the frame: the rows kept
    stay in their order, and no row is added or repeated. *)
Theorem filtered_df_sublist (df : DataFrame) (region state city : list string) :
  filtered_df df region state city `sublist_of` df.
Proof. rewrite filtered_df_conjunctive. apply select_sublist. Qed.

Lemma is_empty_true (l : list string) : is_empty l = true ↔ l = [].
Proof. destruct l; simpl; split; congruence. Qed.

Lemma member_true (v : option string) (sel : list string) :
  member v sel = true ↔ ∃ s, v = Some s ∧ s ∈ sel.
Proof.
  destruct v as [s|]; simpl.
  - rewrite bool_decide_eq_true. split; [eauto|]. by intros (? & [= <-] & ?).
  - split; [done|]. by intros (? & ? & _).
Qed.

Lemma dimension_narrows (v : option string) (sel1 sel2 : list string) :
  sel2 = [] ∨ (sel1 ≠ [] ∧ sel1 ⊆ sel2) →
  is_empty sel1 || member v sel1 = true →
  is_empty sel2 || member v sel2 = true.
Proof.
  intros [->|[Hne Hsub]]; [done|].
  rewrite !orb_true_iff, !is_empty_true, !member_true.
  intros [?|(s & ? & ?)]; [done|]. right. exists s. split; [done|].
  by apply Hsub.
Qed.

(** X2. Picking fewer values in a dimension, or picking some where none was
    picked, only removes rows: the result is a sub-sequence of the result of
    the wider selection. *)
Theorem filtered_df_narrows (df : DataFrame)
    (R1 S1 C1 R2 S2 C2 : list string) :
  R2 = [] ∨ (R1 ≠ [] ∧ R1 ⊆ R2) →
  S2 = [] ∨ (S1 ≠ [] ∧ S1 ⊆ S2) →
  C2 = [] ∨ (C1 ≠ [] ∧ C1 ⊆ C2) →
  filtered_df df R1 S1 C1 `sublist_of` filtered_df df R2 S2 C2.
Proof.
  intros HR HS HC. rewrite !filtered_df_conjunctive.
  apply select_sublist_mono. intros r. unfold conjunctive_predicate.
  rewrite !andb_true_iff. intros [[? ?] ?].
  repeat split; eapply dimension_narrows; eauto.
Qed.

Lemma filtered_df_narrows_witness :
  filtered_df sample ["East"] ["NY"] [] `sublist_of`
  filtered_df sample ["East"; "West"] [] [].
Proof.
  apply (filtered_df_narrows sample ["East"] ["NY"] [] ["East"; "West"] [] []).
  - right. split; [done|]. intros x Hx. apply elem_of_cons. by left;
      apply list_elem_of_singleton in Hx.
  - by left.
  - by left.
Defined.

Lemma dimension_same_set (v : option string) (sel sel' : list string) :
  (∀ x, x ∈ sel ↔ x ∈ sel') →
  is_empty sel || member v sel = is_empty sel' || member v sel'.
Proof.
  intros H. f_equal.
  - destruct sel as [|a sel], sel' as [|b sel']; try done.
    + exfalso. apply (not_elem_of_nil b), H. by left.
    + exfalso. apply (not_elem_of_nil a), H. by left.
  - destruct v as [s|]; [|done]. simpl. apply bool_decide_ext, H.
Qed.

(** X3. Only the set of the values picked matters: two selections with the
    same values, in another order or with repeats, filter alike. *)
Theorem filtered_df_selection_set (df : DataFrame)
    (R R' S S' C C' : list string) :
  (∀ x, x ∈ R ↔ x ∈ R') → (∀ x, x ∈ S ↔ x ∈ S') → (∀ x, x ∈ C ↔ x ∈ C') →
  filtered_df df R S C = filtered_df df R' S' C'.
Proof.
  intros HR HS HC. rewrite !filtered_df_conjunctive.
  apply select_ext. intros r. unfold conjunctive_predicate.
  by rewrite (dimension_same_set _ R R'), (dimension_same_set _ S S'),
    (dimension_same_set _ C C').
Qed.

Lemma filtered_df_selection_set_witness :
  filtered_df sample ["West"; "East"] [] [] =
  filtered_df sample ["East"; "West"; "East"] [] [].
Proof.
  apply (filtered_df_selection_set sample
           ["West"; "East"] ["East"; "West"; "East"] [] [] [] []);
    intros x; rewrite ?elem_of_cons; tauto.
Defined.

(** ** Options and selections *)

Lemma df2_conjunctive df region :
  df2 df region = reference_filter df region [] [].
Proof.
  unfold reference_filter. rewrite <- filtered_df_conjunctive.
  unfold df2, filtered_df, df3, df2. by destruct region.
Qed.

Lemma df3_conjunctive df region state :
  df3 df region state = reference_filter df region state [].
Proof.
  unfold reference_filter. rewrite <- filtered_df_conjunctive.
  unfold filtered_df. cbn [truthy negb andb].
  rewrite !andb_true_r, !andb_false_r.
  unfold df3, df2.
  destruct region as [|r0 region], state as [|s0 state];
    cbn [truthy negb andb]; try done.
  rewrite !select_select. apply select_ext. intros r.
  unfold mask_and. by destruct (isin Region _ r), (isin State _ r).
Qed.

Lemma elem_of_reference_filter D R S C r :
  r ∈ reference_filter D R S C ↔
  r ∈ D ∧ conjunctive_predicate R S C r = true.
Proof. apply elem_of_select. Qed.

(** X4. A value picked among the options offered is never dead: some row of
    the result holds it.  This holds for a city whatever the three
    selections are, for a state when no city is picked and for a region
    when no state and no city is picked. *)
Theorem offered_picks_are_kept (df : DataFrame) (region state city : list string) :
  (∀ v, v ∈ region → v ∈ region_options df →
        ∃ r, r ∈ filtered_df df region [] [] ∧ Region r = Some v) ∧
  (∀ s, s ∈ state → s ∈ state_options df region →
        ∃ r, r ∈ filtered_df df region state [] ∧ State r = Some s) ∧
  (∀ c, c ∈ city → c ∈ city_options df region state →
        ∃ r, r ∈ filtered_df df region state city ∧ City r = Some c).
Proof.
  unfold region_options, state_options, city_options.
  rewrite df2_conjunctive, df3_conjunctive, !filtered_df_conjunctive.
  split; [|split].
  - intros v Hv (r & Hr & E)%elem_of_sorted_unique.
    exists r. split; [|done]. apply elem_of_select. split; [done|].
    apply conjunctive_predicate_true. repeat split; eauto.
  - intros s Hs (r & Hr & E)%elem_of_sorted_unique.
    exists r. split; [|done].
    apply elem_of_reference_filter in Hr as [Hr Hp].
    apply elem_of_select. split; [done|].
    apply conjunctive_predicate_true in Hp as (? & _ & _).
    apply conjunctive_predicate_true. repeat split; eauto.
  - intros c Hc (r & Hr & E)%elem_of_sorted_unique.
    exists r. split; [|done].
    apply elem_of_reference_filter in Hr as [Hr Hp].
    apply elem_of_select. split; [done|].
    apply conjunctive_predicate_true in Hp as (? & ? & _).
    apply conjunctive_predicate_true. repeat split; eauto.
Qed.

Lemma offered_picks_are_kept_witness :
  ∃ r, r ∈ filtered_df sample ["East"] [] ["NYC"] ∧ City r = Some "NYC".
Proof.
  apply (offered_picks_are_kept sample ["East"] [] ["NYC"]).
  - by left.
  - by vm_compute; left.
Defined.



(** X6. The three lists of options are in ascending order and hold no value
    twice; the regions offered are the regions of the rows of the frame. *)
Theorem options_sorted (df : DataFrame) (region state : list string) :
  Sorted str_le (region_options df) ∧ NoDup (region_options df) ∧
  (∀ v, v ∈ region_options df ↔ ∃ r, r ∈ df ∧ Region r = Some v) ∧
  Sorted str_le (state_options df region) ∧
  Sorted str_le (city_options df region state).
Proof.
  unfold region_options, state_options, city_options, sorted_unique.
  repeat split; try apply Sorted_sorted.
  - apply NoDup_sorted_unique.
  - by intros ?%elem_of_sorted_unique.
  - by intros ?%elem_of_sorted_unique.
Qed.

(** X7. Selections only narrow the options: a state offered under a Region
    selection is offered without it, and a city offered under Region and
    State selections is offered under the Region selection alone and
    without any selection. *)
Theorem options_narrow (df : DataFrame) (region state : list string) :
  state_options df region ⊆ state_options df [] ∧
  city_options df region state ⊆ city_options df region [] ∧
  city_options df region state ⊆ city_options df [] [].
Proof.
  unfold state_options, city_options.
  rewrite !df2_conjunctive, !df3_conjunctive.
  repeat split; intros v (r & Hr & E)%elem_of_sorted_unique;
    apply elem_of_sorted_unique; exists r; (split; [|done]);
    apply elem_of_reference_filter in Hr as [Hr Hp];
    apply elem_of_reference_filter; (split; [done|]);
    apply conjunctive_predicate_true in Hp as (? & ? & ?);
    apply conjunctive_predicate_true; auto.
Qed.

(** ** Sorting is canonical *)

Lemma str_le_le a b : str_le a b ↔ String.le a b.
Proof. unfold str_le, String.le. by rewrite Is_true_true. Qed.

Global Instance str_le_trans : Transitive str_le.
Proof. intros a b c. rewrite !str_le_le. apply transitivity. Qed.

Global Instance str_le_antisymm : AntiSymm (=) str_le.
Proof. intros a b. rewrite !str_le_le. apply (anti_symm String.le). Qed.

Lemma sorted_Permutation (l l' : list string) : l ≡ₚ l' → sorted l = sorted l'.
Proof.
  intros H. apply (Sorted_unique str_le); try apply Sorted_sorted.
  unfold sorted. by rewrite !merge_sort_Permutation.
Qed.

Lemma sorted_remove_dups_same (l l' : list string) :
  (∀ x, x ∈ l ↔ x ∈ l') →
  sorted (remove_dups l) = sorted (remove_dups l').
Proof.
  intros H. apply sorted_Permutation, NoDup_Permutation;
    try apply NoDup_remove_dups.
  intros x. by rewrite !elem_of_remove_dups.
Qed.

Lemma select_Permutation (m : Mask) (df df' : DataFrame) :
  df ≡ₚ df' → select m df ≡ₚ select m df'.
Proof.
  unfold select. induction 1 as [|r ?? _ IH|r1 r2 ?|??? _ IH1 _ IH2]; simpl.
  - done.
  - destruct (m r); by rewrite IH.
  - destruct (m r1), (m r2); try done. apply perm_swap.
  - by etrans.
Qed.

Lemma groupby_sum_keys_Permutation (key : Row → option string)
    (df df' : DataFrame) :
  df ≡ₚ df' → (groupby_sum key df).*1 = (groupby_sum key df').*1.
Proof.
  intros H. rewrite !groupby_sum_keys. apply sorted_remove_dups_same.
  intros x. rewrite !list_elem_of_omap. by setoid_rewrite H.
Qed.

(** ** Further properties of the views *)

(** X8. Which keys a view lists, and in which order, does not depend on the
    order of the rows of the filtered frame, and each group holds the same
    rows, in their new order.  (The sum of a group is a floating-point sum
    in the script and may change in its last digits with the order.) *)
Theorem view_keys_ignore_row_order (fdf fdf' : DataFrame) :
  fdf ≡ₚ fdf' →
  (category_df fdf).*1 = (category_df fdf').*1 ∧
  (region_sum fdf).*1 = (region_sum fdf').*1 ∧
  (linechart fdf).*1 = (linechart fdf').*1 ∧
  ∀ key k, select (has_key key k) fdf ≡ₚ select (has_key key k) fdf'.
Proof.
  intros H. unfold category_df, region_sum, linechart.
  rewrite !(groupby_sum_keys_Permutation _ fdf fdf') by done.
  repeat split. intros key k. by apply select_Permutation.
Qed.

Lemma view_keys_ignore_row_order_witness :
  (category_df sample).*1 = (category_df (reverse sample)).*1.
Proof.
  apply (view_keys_ignore_row_order sample (reverse sample)).
  symmetry. apply reverse_Permutation.
Defined.

Lemma groupby_sum_nil (key : Row → option string) (df : DataFrame) :
  groupby_sum key df = [] ↔ ∀ r, r ∈ df → key r = None.
Proof.
  unfold groupby_sum. split.
  - intros E%fmap_nil_inv r Hr.
    destruct (key r) as [k|] eqn:Ek; [|done]. exfalso.
    apply (not_elem_of_nil k). rewrite <- E.
    rewrite elem_of_sorted, elem_of_remove_dups, list_elem_of_omap. eauto.
  - intros H. destruct (sorted _) as [|k l] eqn:E; [done|]. exfalso.
    assert (Hk : k ∈ sorted (remove_dups (omap key df))) by (rewrite E; left).
    rewrite elem_of_sorted, elem_of_remove_dups, list_elem_of_omap in Hk.
    destruct Hk as (r & Hr & Hk). rewrite (H r Hr) in Hk. done.
Qed.

(** X9. A view is empty exactly when no row of the filtered frame has a
    key: no category for the Category view, no region for the Region view,
    no order date for the time series.  So the views of an empty frame are
    empty. *)
Theorem empty_views (fdf : DataFrame) :
  (category_df fdf = [] ↔ ∀ r, r ∈ fdf → Category r = None) ∧
  (region_sum fdf = [] ↔ ∀ r, r ∈ fdf → Region r = None) ∧
  (linechart fdf = [] ↔ ∀ r, r ∈ fdf → OrderDate r = None).
Proof.
  unfold category_df, region_sum, linechart. rewrite !groupby_sum_nil.
  repeat split; auto.
  - intros H r Hr. specialize (H r Hr). unfold month_year_label in H.
    by destruct (OrderDate r).
  - intros H r Hr. unfold month_year_label. by rewrite (H r Hr).
Qed.

(** X10. The Category and Region views list each key once, in ascending
    order of the keys. *)
Theorem view_keys_sorted (fdf : DataFrame) :
  NoDup (category_df fdf).*1 ∧ Sorted str_le (category_df fdf).*1 ∧
  NoDup (region_sum fdf).*1 ∧ Sorted str_le (region_sum fdf).*1.
Proof.
  unfold category_df, region_sum.
  auto using groupby_sum_keys_NoDup, groupby_sum_keys_Sorted.
Qed.

Lemma has_label_in_month (p : Period) (fdf : DataFrame) :
  0 ≤ p_year p →
  (∀ r d, r ∈ fdf → OrderDate r = Some d → 0 ≤ ts_year d) →
  select (has_key month_year_label (strftime_Y_b p)) fdf =
  select (in_month p) fdf.
Proof.
  intros Hp Hy. unfold select. apply List.filter_ext_in.
  intros r Hr%list_elem_of_In. unfold has_key, in_month, month_year_label.
  apply bool_decide_ext. destruct (OrderDate r) as [d|] eqn:E; simpl; [|done].
  split; intros [= H]; f_equal; [|by rewrite H].
  apply strftime_Y_b_inj; [|done..]. simpl. eauto.
Qed.

(** X11. Over dates of our era the time series has one row per month of a
    year in which some row of the filtered frame is dated, labelled
    ["%Y-%b"], holding the sum of the sales of the rows dated in that
    month. *)
Theorem linechart_by_month (fdf : DataFrame) (l : string) (v : Z) :
  (∀ r d, r ∈ fdf → OrderDate r = Some d → 0 ≤ ts_year d) →
  (l, v) ∈ linechart fdf ↔
  ∃ p, l = strftime_Y_b p ∧
       (∃ r d, r ∈ fdf ∧ OrderDate r = Some d ∧ to_period_M d = p) ∧
       v = sum_sales (select (in_month p) fdf).
Proof.
  intros Hy. unfold linechart. rewrite elem_of_groupby_sum. split.
  - intros [(r & Hr & El) ->]. unfold month_year_label in El.
    destruct (OrderDate r) as [d|] eqn:E; [|done]. injection El as <-.
    exists (to_period_M d). split; [done|]. split; [by eauto|].
    f_equal. apply has_label_in_month; [|done]. simpl. eauto.
  - intros (p & -> & (r & d & Hr & E & <-) & ->). split.
    + exists r. split; [done|]. unfold month_year_label. by rewrite E.
    + f_equal. symmetry. apply has_label_in_month; [|done]. simpl. eauto.
Qed.

Lemma linechart_by_month_witness :
  ("2024-Jan", 150) ∈ linechart sample ↔
  ∃ p, "2024-Jan" = strftime_Y_b p ∧
       (∃ r d, r ∈ sample ∧ OrderDate r = Some d ∧ to_period_M d = p) ∧
       150 = sum_sales (select (in_month p) sample).
Proof.
  apply (linechart_by_month sample "2024-Jan" 150).
  intros r d Hr E.
  repeat (apply elem_of_cons in Hr as [->|Hr];
          [injection E as <-; simpl; lia|]).
  by apply not_elem_of_nil in Hr.
Defined.

(** ** The order of timestamps is a total order *)

Lemma ts_le_iff (a b : Timestamp) :
  ts_le a b ↔
  ts_year a < ts_year b ∨
  (ts_year a = ts_year b ∧
   (month_number (ts_month a) < month_number (ts_month b) ∨
    (month_number (ts_month a) = month_number (ts_month b) ∧
     (ts_day a < ts_day b ∨
      (ts_day a = ts_day b ∧ ts_time a ≤ ts_time b))))).
Proof.
  unfold ts_le, ts_compare.
  destruct (Z.compare_spec (ts_year a) (ts_year b));
    destruct (Z.compare_spec (month_number (ts_month a))
                             (month_number (ts_month b)));
    destruct (Z.compare_spec (ts_day a) (ts_day b));
    destruct (Z.compare_spec (ts_time a) (ts_time b));
    simpl; split; intros; try done; try lia.
Qed.

Lemma ts_le_trans (a b c : Timestamp) : ts_le a b → ts_le b c → ts_le a c.
Proof. rewrite !ts_le_iff. lia. Qed.

Lemma ts_le_total (a b : Timestamp) : ts_le a b ∨ ts_le b a.
Proof. rewrite !ts_le_iff. lia. Qed.

Lemma ts_min_le (a b : Timestamp) : ts_le (ts_min a b) a ∧ ts_le (ts_min a b) b.
Proof.
  unfold ts_min. destruct (ts_leb a b) eqn:E.
  - apply ts_leb_true in E. auto using ts_le_refl.
  - split; [|apply ts_le_refl].
    destruct (ts_le_total a b) as [H|H]; [|done].
    apply ts_leb_true in H. congruence.
Qed.

Lemma ts_max_ge (a b : Timestamp) : ts_le a (ts_max a b) ∧ ts_le b (ts_max a b).
Proof.
  unfold ts_max. destruct (ts_leb a b) eqn:E.
  - apply ts_leb_true in E. auto using ts_le_refl.
  - split; [apply ts_le_refl|].
    destruct (ts_le_total a b) as [H|H]; [|done].
    apply ts_leb_true in H. congruence.
Qed.

Lemma foldl_ts_min (ts : list Timestamp) (t : Timestamp) :
  (foldl ts_min t ts = t ∨ foldl ts_min t ts ∈ ts) ∧
  ts_le (foldl ts_min t ts) t ∧
  ∀ x, x ∈ ts → ts_le (foldl ts_min t ts) x.
Proof.
  revert t. induction ts as [|u ts IH]; intros t; simpl.
  - split; [by left|]. split; [apply ts_le_refl|].
    by intros x ?%not_elem_of_nil.
  - destruct (IH (ts_min t u)) as (Hin & Hle & Hall).
    destruct (ts_min_le t u) as [Ht Hu]. split; [|split].
    + destruct Hin as [->|Hin]; [|by right; right].
      unfold ts_min. destruct (ts_leb t u); [by left|right; left].
    + by eapply ts_le_trans.
    + intros x [->|Hx]%elem_of_cons; [by eapply ts_le_trans|by apply Hall].
Qed.

Lemma foldl_ts_max (ts : list Timestamp) (t : Timestamp) :
  (foldl ts_max t ts = t ∨ foldl ts_max t ts ∈ ts) ∧
  ts_le t (foldl ts_max t ts) ∧
  ∀ x, x ∈ ts → ts_le x (foldl ts_max t ts).
Proof.
  revert t. induction ts as [|u ts IH]; intros t; simpl.
  - split; [by left|]. split; [apply ts_le_refl|].
    by intros x ?%not_elem_of_nil.
  - destruct (IH (ts_max t u)) as (Hin & Hle & Hall).
    destruct (ts_max_ge t u) as [Ht Hu]. split; [|split].
    + destruct Hin as [->|Hin]; [|by right; right].
      unfold ts_max. destruct (ts_leb t u); [right; left|by left].
    + by eapply ts_le_trans.
    + intros x [->|Hx]%elem_of_cons; [by eapply ts_le_trans|by apply Hall].
Qed.

Lemma series_min_Some (col : list Timestamp) (a : Timestamp) :
  series_min col = Some a → a ∈ col ∧ ∀ x, x ∈ col → ts_le a x.
Proof.
  destruct col as [|t ts]; [done|]. intros [= <-].
  destruct (foldl_ts_min ts t) as (Hin & Hle & Hall). split.
  - destruct Hin as [->|?]; [left|by right].
  - by intros x [->|?]%elem_of_cons; [|apply Hall].
Qed.

Lemma series_max_Some (col : list Timestamp) (b : Timestamp) :
  series_max col = Some b → b ∈ col ∧ ∀ x, x ∈ col → ts_le x b.
Proof.
  destruct col as [|t ts]; [done|]. intros [= <-].
  destruct (foldl_ts_max ts t) as (Hin & Hle & Hall). split.
  - destruct Hin as [->|?]; [left|by right].
  - by intros x [->|?]%elem_of_cons; [|apply Hall].
Qed.

Lemma elem_of_order_dates (df : DataFrame) (d : Timestamp) :
  d ∈ omap OrderDate (dropna OrderDate df) ↔
  ∃ r, r ∈ df ∧ OrderDate r = Some d.
Proof.
  rewrite list_elem_of_omap. split.
  - intros (r & [Hr _]%elem_of_dropna & E). eauto.
  - intros (r & Hr & E). exists r. split; [|done].
    apply elem_of_dropna. split; [done|]. by eexists.
Qed.

Lemma date_input_default_mono (a b : Timestamp) :
  ts_le a b → ts_le (date_input_default a) (date_input_default b).
Proof. rewrite !ts_le_iff. simpl. lia. Qed.

Lemma date_input_default_le (a : Timestamp) :
  0 ≤ ts_time a → ts_le (date_input_default a) a.
Proof. rewrite !ts_le_iff. simpl. lia. Qed.

Lemma date_input_default_midnight (a : Timestamp) :
  ts_time a = 0 → date_input_default a = a.
Proof. destruct a. simpl. by intros ->. Qed.

(** ** The default date range *)

(** X12. With the two date inputs left at their defaults (the days of the
    earliest and of the latest order date) the script never shows the range
    warning, and it keeps the rows dated no later than midnight of the last
    day: all the rows that have a date when the dates carry no time of day,
    but not a row of the last day with a later time. *)
Theorem default_date_range (df : DataFrame) (a b : Timestamp) :
  startdate df = Some a → enddate df = Some b →
  (∀ r d, r ∈ df → OrderDate r = Some d → 0 ≤ ts_time d) →
  ∃ out,
    date_filter df (date_input_default a) (date_input_default b) =
      Continue out ∧
    (∀ r, r ∈ out ↔
          r ∈ df ∧
          ∃ d, OrderDate r = Some d ∧ ts_le d (date_input_default b)) ∧
    ((∀ r d, r ∈ df → OrderDate r = Some d → ts_time d = 0) →
     out = dropna OrderDate df).
Proof.
  intros [Ha Hmin]%series_min_Some [Hb Hmax]%series_max_Some Htime.
  apply elem_of_order_dates in Ha as (ra & Hra & Ea).
  apply elem_of_order_dates in Hb as (rb & Hrb & Eb).
  assert (Hab : ts_le (date_input_default a) (date_input_default b)).
  { apply date_input_default_mono, Hmax, elem_of_order_dates. eauto. }
  assert (Hta : ts_le (date_input_default a) a).
  { apply date_input_default_le. eauto. }
  eexists. split; [by apply date_filter_continue|]. split.
  - intros r. rewrite elem_of_select, elem_of_dropna, in_range_true. split.
    + intros [[Hr _] (d & E & _ & Hd)]. eauto.
    + intros [Hr (d & E & Hd)]. split; [split; [done|by eexists]|].
      exists d. repeat split; [done| |done].
      apply ts_le_trans with a; [done|].
      apply Hmin, elem_of_order_dates. eauto.
  - intros Hzero. apply select_true.
    intros r [Hr [d E]]%elem_of_dropna. apply in_range_true.
    exists d. repeat split; [done|..].
    + apply ts_le_trans with a; [done|].
      apply Hmin, elem_of_order_dates. eauto.
    + rewrite (date_input_default_midnight b) by eauto.
      apply Hmax, elem_of_order_dates. eauto.
Qed.

Lemma default_date_range_witness :
  ∃ out,
    date_filter (null_row :: sample)
      (date_input_default (midnight 2024 Jan 15))
      (date_input_default (midnight 2024 Feb 10)) = Continue out.
Proof.
  destruct (default_date_range (null_row :: sample)
              (midnight 2024 Jan 15) (midnight 2024 Feb 10))
    as (out & E & _); [reflexivity|reflexivity| |by exists out].
  intros r d Hr E.
  repeat (apply elem_of_cons in Hr as [->|Hr];
          [injection E as <-; simpl; lia|]).
  by apply not_elem_of_nil in Hr.
Defined.

(** A row of the last day with a time of day is left out by the default
    range. *)
Example default_range_drops_late_row :
  let late := mk_row {| ts_year := 2024; ts_month := Feb; ts_day := 10;
                        ts_time := 1 |} "West" "CA" "LA" "Tech" 7 in
  ∃ a b, startdate (late :: sample) = Some a ∧
         enddate (late :: sample) = Some b ∧
         date_filter (late :: sample)
           (date_input_default a) (date_input_default b) = Continue sample.
Proof. do 2 eexists. by vm_compute. Qed.

(** X13. Widening the date range never loses a row: the rows kept for a
    range are, in order, among the rows kept for any range around it. *)
Theorem date_filter_widens (df out out' : DataFrame)
    (date1 date2 date1' date2' : Timestamp) :
  ts_le date1' date1 → ts_le date2 date2' →
  date_filter df date1 date2 = Continue out →
  date_filter df date1' date2' = Continue out' →
  out `sublist_of` out'.
Proof.
  intros H1 H2. unfold date_filter.
  destruct (ts_gtb date1 date2); [done|].
  destruct (ts_gtb date1' date2'); [done|].
  intros [= <-] [= <-]. apply select_sublist_mono.
  intros r (d & E & ? & ?)%in_range_true. apply in_range_true.
  exists d. eauto using ts_le_trans.
Qed.

Lemma date_filter_widens_witness :
  [ mk_row (midnight 2024 Feb 10) "West" "CA" "LA" "Tech" 200 ]
    `sublist_of` sample.
Proof.
  apply (date_filter_widens sample _ _
           (midnight 2024 Feb 1) (midnight 2024 Feb 28)
           (midnight 2024 Jan 1) (midnight 2024 Dec 31));
    [discriminate|discriminate|reflexivity|reflexivity].
Defined.

(** ** Validation and the run as a whole *)

Lemma truthy_false {A} (l : list A) : truthy l = false ↔ l = [].
Proof. destruct l; simpl; split; congruence. Qed.

Lemma validate_continue (columns : list string) :
  validate columns = Continue () ↔
  ["Order Date"; "Region"; "State"; "City"; "Category"; "Sales"] ⊆ columns.
Proof.
  unfold validate.
  destruct (truthy (elements (missing columns))) eqn:E; split; try done.
  - intros Hsub. exfalso.
    destruct (elements (missing columns)) as [|c l] eqn:El; [done|].
    assert (Hc : c ∈ elements (missing columns)) by (rewrite El; left).
    apply elem_of_elements, elem_of_missing in Hc as [Hreq Habs].
    apply Habs, Hsub. by apply elem_of_list_to_set in Hreq.
  - intros _ c Hc. apply truthy_false in E.
    destruct (decide (c ∈ columns)) as [|Habs]; [done|]. exfalso.
    apply (not_elem_of_nil c). rewrite <- E.
    apply elem_of_elements, elem_of_missing. split; [|done].
    by apply elem_of_list_to_set.
Qed.

(** X14. Validation lets a frame pass exactly when it has the six required
    columns; further columns, the order of the columns and repeated names
    do not matter. *)
Theorem validate_passes_iff (columns : list string) :
  (validate columns = Continue () ↔
   ["Order Date"; "Region"; "State"; "City"; "Category"; "Sales"] ⊆ columns) ∧
  (∀ columns', (∀ c, c ∈ columns ↔ c ∈ columns') →
               validate columns = validate columns').
Proof.
  split; [apply validate_continue|].
  intros columns' H. unfold validate, missing.
  assert (E : (list_to_set columns : gset string) = list_to_set columns').
  { apply set_eq. intros c. by rewrite !elem_of_list_to_set. }
  by rewrite E.
Qed.

Lemma dashboard_stages columns df date1 date2 region state city :
  dashboard columns df date1 date2 region state city =
  match validate columns with
  | Stop shown => Stop shown
  | Continue _ =>
      match date_filter df date1 date2 with
      | Stop shown => Stop shown
      | Continue df' =>
          Continue {| v_sidebar := sidebar df' region state city;
                      v_category_df :=
                        category_df (filtered_df df' region state city);
                      v_region_sum :=
                        region_sum (filtered_df df' region state city);
                      v_linechart :=
                        linechart (filtered_df df' region state city) |}
      end
  end.
Proof.
  unfold dashboard. destruct (validate columns); [|done]. simpl.
  by destruct (date_filter df date1 date2).
Qed.

(** X15. On a frame with at least one dated row, so that the two date
    inputs can be drawn, the script reaches the charts exactly when the six
    columns are there and the start date is not after the end date.  It
    shows the range warning exactly when the columns are there and the
    start date is after the end date: missing columns are reported first. *)
Theorem dashboard_outcome (columns : list string) (df : DataFrame)
    (date1 date2 : Timestamp) (region state city : list string) :
  is_Some (startdate df) →
  ((∃ v, dashboard columns df date1 date2 region state city = Continue v) ↔
   ["Order Date"; "Region"; "State"; "City"; "Category"; "Sales"] ⊆ columns ∧
   ts_le date1 date2) ∧
  (dashboard columns df date1 date2 region state city =
     Stop (Warning invalid_range_message) ↔
   ["Order Date"; "Region"; "State"; "City"; "Category"; "Sales"] ⊆ columns ∧
   ts_lt date2 date1).
Proof.
  intros _. rewrite dashboard_stages, <- validate_continue.
  rewrite <- ts_gtb_false, <- ts_gtb_true. unfold validate, date_filter.
  destruct (truthy (elements (missing columns)));
    destruct (ts_gtb date1 date2); split; split;
    try (by intros [? ?]); try (by intros [[? ?] ?]); try done; eauto.
Qed.

Lemma dashboard_outcome_witness :
  (∃ v, dashboard all_columns sample (midnight 2024 Jan 1)
          (midnight 2024 Dec 31) [] [] [] = Continue v) ↔
  ["Order Date"; "Region"; "State"; "City"; "Category"; "Sales"]
    ⊆ all_columns ∧
  ts_le (midnight 2024 Jan 1) (midnight 2024 Dec 31).
Proof.
  apply (dashboard_outcome all_columns sample (midnight 2024 Jan 1)
           (midnight 2024 Dec 31) [] [] []).
  by eexists.
Defined.

(** X16. In a run that reaches the charts, the rows of the filtered frame
    are exactly the rows of the loaded frame that have an order date within
    the two bounds and that meet each non-empty selection. *)
Theorem charted_rows (columns : list string) (df : DataFrame)
    (date1 date2 : Timestamp) (region state city : list string)
    (v : Views) (r : Row) :
  dashboard columns df date1 date2 region state city = Continue v →
  r ∈ sb_filtered_df (v_sidebar v) ↔
  r ∈ df ∧
  (∃ d, OrderDate r = Some d ∧ ts_le date1 d ∧ ts_le d date2) ∧
  (region = [] ∨ ∃ x, Region r = Some x ∧ x ∈ region) ∧
  (state = [] ∨ ∃ x, State r = Some x ∧ x ∈ state) ∧
  (city = [] ∨ ∃ x, City r = Some x ∧ x ∈ city).
Proof.
  intros (df' & Hd & -> & _)%dashboard_continue.
  cbn [sidebar sb_filtered_df].
  rewrite filtered_df_conjunctive, elem_of_select.
  rewrite (elem_of_date_filter _ _ _ _ r Hd), conjunctive_predicate_true.
  tauto.
Qed.

Lemma charted_rows_witness :
  ∃ v r, dashboard all_columns sample (midnight 2024 Jan 1)
           (midnight 2024 Jan 31) ["East"] [] [] = Continue v ∧
         (r ∈ sb_filtered_df (v_sidebar v) ↔
          r ∈ sample ∧
          (∃ d, OrderDate r = Some d ∧ ts_le (midnight 2024 Jan 1) d ∧
                ts_le d (midnight 2024 Jan 31)) ∧
          (["East"] = [] ∨ ∃ x, Region r = Some x ∧ x ∈ ["East"]) ∧
          (@nil string = [] ∨ ∃ x, State r = Some x ∧ x ∈ @nil string) ∧
          (@nil string = [] ∨ ∃ x, City r = Some x ∧ x ∈ @nil string)).
Proof.
  eexists. exists null_row. split; [vm_compute; reflexivity|].
  eapply (charted_rows all_columns sample (midnight 2024 Jan 1)
            (midnight 2024 Jan 31) ["East"] [] []).
  vm_compute. reflexivity.
Defined.

(** ** The loaders *)

Lemma lower_app (a b : string) : lower (a ++ b) = lower a ++ lower b.
Proof.
  induction a as [|c a IH]; [done|].
  rewrite append_String. simpl. rewrite IH. by rewrite append_String.
Qed.

Lemma list_ascii_of_string_app (a b : string) :
  list_ascii_of_string (a ++ b) =
  (list_ascii_of_string a ++ list_ascii_of_string b)%list.
Proof.
  induction a as [|c a IH]; [done|].
  rewrite append_String. simpl. by rewrite IH.
Qed.

Lemma endswith_true (s suf : string) :
  endswith s suf = true ↔ ∃ stem, s = stem ++ suf.
Proof.
  unfold endswith. rewrite bool_decide_eq_true. split.
  - intros [k E]. exists (string_of_list_ascii k).
    rewrite <- (string_of_list_ascii_of_string s), E.
    rewrite <- (string_of_list_ascii_of_string
                  (string_of_list_ascii k ++ suf)).
    by rewrite list_ascii_of_string_app, list_ascii_of_string_of_list_ascii.
  - intros [stem ->]. exists (list_ascii_of_string stem).
    apply list_ascii_of_string_app.
Qed.

Lemma endswith_last (s t : string) (l l' : list ascii) (c c' : ascii) :
  list_ascii_of_string s = (l ++ [c])%list →
  list_ascii_of_string t = (l' ++ [c'])%list →
  c ≠ c' → endswith s t = false.
Proof.
  intros Es Et Hne. unfold endswith. apply bool_decide_eq_false_2.
  rewrite Es, Et. intros H%suffix_snoc_inv_1. congruence.
Qed.

Lemma lower_split (s : string) (a b : string) :
  lower s = a ++ b →
  ∃ s1 s2, s = s1 ++ s2 ∧ lower s1 = a ∧ lower s2 = b.
Proof.
  revert s. induction a as [|c a IH]; intros s E.
  - by exists "", s.
  - destruct s as [|c' s]; [done|].
    rewrite append_String in E. simpl in E. injection E as Ec E.
    destruct (IH s E) as (s1 & s2 & -> & <- & <-).
    exists (String c' s1), s2. by rewrite append_String, <- Ec.
Qed.

Section loaders_properties.
Context {Source Frame : Type}.
Variable name : Source → string.
Variable path_str : Source → string.
Variable exists_ : Source → bool.
Variable suffix : Source → string.
Variable read_csv : Source → Result Frame.
Variable read_excel : Source → Engine → Result Frame.
Variable columns : Frame → list string.
Variable coerce_order_date : Frame → Frame.

Local Notation "'ensure'" := (ensure_order_date columns coerce_order_date).
Local Notation "'upload'" :=
  (load_uploaded_file name read_csv read_excel columns coerce_order_date).
Local Notation "'load'" :=
  (load_data name path_str exists_ suffix read_csv read_excel columns
     coerce_order_date).

(** The name ends, in some letter case, in one of the four extensions. *)
Local Notation "'supported' file" :=
  (∃ stem ext, name file = stem ++ ext ∧
               lower ext ∈ [".csv"; ".txt"; ".xlsx"; ".xls"])
  (at level 10, file at level 9).

Lemma bind_ensure (m : Result Frame) :
  (df ← m; mret (ensure df)) = ensure <$> m.
Proof. by destruct m. Qed.

Lemma fmap_Raise {A B} (f : A → B) (m : Result A) (e : Exception) :
  f <$> m = Raise e ↔ m = Raise e.
Proof. destruct m; simpl; split; congruence. Qed.

Lemma endswith_lower_ext (stem ext suf : string) :
  lower ext = suf → endswith (lower (stem ++ ext)) suf = true.
Proof. intros <-. rewrite lower_app. apply endswith_true. eauto. Qed.

Lemma not_endswith_lower_ext (stem ext : string) (l l' : list ascii)
    (c c' : ascii) (suf : string) :
  list_ascii_of_string (lower ext) = (l ++ [c])%list →
  list_ascii_of_string suf = (l' ++ [c'])%list →
  c ≠ c' → endswith (lower (stem ++ ext)) suf = false.
Proof.
  intros Ee Es Hne. rewrite lower_app.
  eapply (endswith_last _ _ (list_ascii_of_string (lower stem) ++ l) l');
    [|done..].
  by rewrite list_ascii_of_string_app, Ee, (assoc_L (++)%list).
Qed.

Lemma upload_by_extension (file : Source) (stem ext : string) :
  name file = stem ++ ext →
  (lower ext = ".csv" ∨ lower ext = ".txt" →
   upload file = ensure <$> read_csv file) ∧
  (lower ext = ".xlsx" →
   upload file = ensure <$> read_excel file openpyxl) ∧
  (lower ext = ".xls" →
   upload file = ensure <$> read_excel file xlrd).
Proof.
  intros E. unfold load_uploaded_file. rewrite !bind_ensure, E.
  split; [|split].
  - intros [H|H]; rewrite (endswith_lower_ext _ _ _ H); [done|].
    by rewrite orb_true_r.
  - intros H.
    rewrite (not_endswith_lower_ext stem ext
               (list_ascii_of_string ".xls") (list_ascii_of_string ".cs")
               "x" "v" ".csv"); [|by rewrite H|done|done].
    rewrite (not_endswith_lower_ext stem ext
               (list_ascii_of_string ".xls") (list_ascii_of_string ".tx")
               "x" "t" ".txt"); [|by rewrite H|done|done].
    by rewrite (endswith_lower_ext _ _ _ H).
  - intros H.
    rewrite (not_endswith_lower_ext stem ext
               (list_ascii_of_string ".xl") (list_ascii_of_string ".cs")
               "s" "v" ".csv"); [|by rewrite H|done|done].
    rewrite (not_endswith_lower_ext stem ext
               (list_ascii_of_string ".xl") (list_ascii_of_string ".tx")
               "s" "t" ".txt"); [|by rewrite H|done|done].
    rewrite (not_endswith_lower_ext stem ext
               (list_ascii_of_string ".xl") (list_ascii_of_string ".xls")
               "s" "x" ".xlsx"); [|by rewrite H|done|done].
    by rewrite (endswith_lower_ext _ _ _ H).
Qed.

Lemma upload_unsupported (file : Source) :
  ¬ supported file → upload file = Raise (ValueError unsupported_message).
Proof.
  intros Hno. unfold load_uploaded_file.
  assert (K : ∀ suf, suf ∈ [".csv"; ".txt"; ".xlsx"; ".xls"] →
                     endswith (lower (name file)) suf = false).
  { intros suf Hsuf. apply not_true_is_false.
    intros [k (s1 & s2 & E & _ & E2)%lower_split]%endswith_true.
    apply Hno. exists s1, s2. by rewrite E2. }
  rewrite !K; [done|..]; rewrite !elem_of_cons; auto.
Qed.

Lemma upload_supported_raise (file : Source) (e : Exception) :
  supported file → upload file = Raise e →
  read_csv file = Raise e ∨ read_excel file openpyxl = Raise e ∨
  read_excel file xlrd = Raise e.
Proof.
  intros (stem & ext & E & Hext) Hraise.
  destruct (upload_by_extension file stem ext E) as (Hcsv & Hxlsx & Hxls).
  repeat (apply elem_of_cons in Hext as [Hext|Hext]).
  - rewrite Hcsv in Hraise by auto. apply fmap_Raise in Hraise. auto.
  - rewrite Hcsv in Hraise by auto. apply fmap_Raise in Hraise. auto.
  - rewrite Hxlsx in Hraise by auto. apply fmap_Raise in Hraise. auto.
  - rewrite Hxls in Hraise by auto. apply fmap_Raise in Hraise. auto.
  - by apply not_elem_of_nil in Hext.
Qed.

Lemma not_supported_check (file : Source) :
  endswith (lower (name file)) ".csv" = false →
  endswith (lower (name file)) ".txt" = false →
  endswith (lower (name file)) ".xlsx" = false →
  endswith (lower (name file)) ".xls" = false →
  ¬ supported file.
Proof.
  intros E1 E2 E3 E4 (stem & ext & E & Hext).
  assert (K : ∀ suf, lower ext = suf →
                     endswith (lower (name file)) suf = true).
  { intros suf <-. rewrite E. by apply endswith_lower_ext. }
  repeat (apply elem_of_cons in Hext as [Hext|Hext]);
    try (apply K in Hext; congruence).
  by apply not_elem_of_nil in Hext.
Qed.

Lemma supported_dec (file : Source) : supported file ∨ ¬ supported file.
Proof.
  destruct (endswith (lower (name file)) ".csv") eqn:E1;
    [|destruct (endswith (lower (name file)) ".txt") eqn:E2;
      [|destruct (endswith (lower (name file)) ".xlsx") eqn:E3;
        [|destruct (endswith (lower (name file)) ".xls") eqn:E4]]].
  1-4: left;
    match goal with
    | H : endswith _ ?suf = true |- _ =>
        apply endswith_true in H as [k (s1 & s2 & E & _ & Es)%lower_split];
        exists s1, s2; split; [done|]; rewrite Es, !elem_of_cons; auto
    end.
  right. by apply not_supported_check.
Qed.

(** X17. The upload loader goes by the extension of the file name, whatever
    the case of its letters: a name ending in .csv or .txt is read as CSV, a
    name ending in .xlsx with openpyxl and a name ending in .xls with xlrd.
    The frame read then has its Order Date column, if any, coerced; when
    the reader raises, the loader raises the same. *)
Theorem load_uploaded_file_by_extension (file : Source) (stem ext : string) :
  name file = stem ++ ext →
  (lower ext = ".csv" ∨ lower ext = ".txt" →
   upload file = ensure <$> read_csv file) ∧
  (lower ext = ".xlsx" →
   upload file = ensure <$> read_excel file openpyxl) ∧
  (lower ext = ".xls" →
   upload file = ensure <$> read_excel file xlrd).
Proof. apply upload_by_extension. Qed.

(** X18. For a file name that does not end, in any letter case, in one of
    .csv, .txt, .xlsx and .xls the upload loader raises the ValueError for
    an unsupported type, whatever the readers would do.  An exception that
    the loader raises is that one, for such a name, or else the exception
    raised by a reader on a name that is supported. *)
Theorem load_uploaded_file_unsupported (file : Source) :
  (¬ supported file → upload file = Raise (ValueError unsupported_message)) ∧
  (∀ e, upload file = Raise e →
        (¬ supported file ∧ e = ValueError unsupported_message) ∨
        (supported file ∧
         (read_csv file = Raise e ∨ read_excel file openpyxl = Raise e ∨
          read_excel file xlrd = Raise e))).
Proof.
  split; [apply upload_unsupported|].
  intros e Hraise. destruct (supported_dec file) as [Hs|Hn].
  - right. split; [done|]. by apply upload_supported_raise.
  - left. split; [done|]. rewrite (upload_unsupported file Hn) in Hraise.
    by injection Hraise as <-.
Qed.

(** X19. Without an upload, a bundled path that does not exist makes the
    load raise FileNotFoundError with the message that names the path.  An
    exception raised by the load is the upload loader's when there is an
    upload; without one it is that FileNotFoundError, or the exception of
    the reader of the bundled file.  A bundled file that exists is not
    turned down for its type: with a suffix that is neither .xlsx nor .xls
    it goes to the CSV reader. *)
Theorem load_data_failures (uploaded : option Source) (DATA_FALLBACK : Source) :
  (uploaded = None → exists_ DATA_FALLBACK = false →
   load uploaded DATA_FALLBACK =
   Raise (FileNotFoundError (not_found_message (path_str DATA_FALLBACK)))) ∧
  (∀ e, load uploaded DATA_FALLBACK = Raise e →
        (∃ file, uploaded = Some file ∧ upload file = Raise e) ∨
        (uploaded = None ∧ exists_ DATA_FALLBACK = false ∧
         e = FileNotFoundError
               (not_found_message (path_str DATA_FALLBACK))) ∨
        (uploaded = None ∧ exists_ DATA_FALLBACK = true ∧
         (read_csv DATA_FALLBACK = Raise e ∨
          read_excel DATA_FALLBACK openpyxl = Raise e ∨
          read_excel DATA_FALLBACK xlrd = Raise e))) ∧
  (uploaded = None → exists_ DATA_FALLBACK = true →
   lower (suffix DATA_FALLBACK) ∉ [".xlsx"; ".xls"] →
   load uploaded DATA_FALLBACK = ensure <$> read_csv DATA_FALLBACK).
Proof.
  split; [|split].
  - intros -> Hex. simpl. unfold load_fallback_file. by rewrite Hex.
  - intros e. destruct uploaded as [file|]; simpl; [by eauto|].
    unfold load_fallback_file.
    destruct (exists_ DATA_FALLBACK); simpl.
    + rewrite bind_ensure. intros H%fmap_Raise. right. right.
      split; [done|]. split; [done|].
      destruct (String.eqb (lower (suffix DATA_FALLBACK)) ".xlsx");
        [by auto|].
      destruct (String.eqb (lower (suffix DATA_FALLBACK)) ".xls"); by auto.
    + intros [= <-]. right. left. done.
  - intros -> Hex Hsuf. simpl. unfold load_fallback_file. rewrite Hex. simpl.
    rewrite bind_ensure.
    destruct (String.eqb_spec (lower (suffix DATA_FALLBACK)) ".xlsx") as [E|_].
    { exfalso. apply Hsuf. rewrite E. left. }
    destruct (String.eqb_spec (lower (suffix DATA_FALLBACK)) ".xls") as [E|_].
    { exfalso. apply Hsuf. rewrite E. right. left. }
    done.
Qed.
End loaders_properties.

Lemma load_uploaded_file_by_extension_witness :
  load_uploaded_file (λ f : string, f) (λ _, Return "frame read as CSV")
    (λ _ _, Raise (OtherError "XLRDError" "not an Excel file"))
    (λ _ : string, []) (λ df, df) "Orders.CSV" =
  Return "frame read as CSV".
Proof.
  destruct (load_uploaded_file_by_extension (λ f : string, f)
              (λ _, Return "frame read as CSV")
              (λ _ _, Raise (OtherError "XLRDError" "not an Excel file"))
              (λ _ : string, []) (λ df, df)
              "Orders.CSV" "Orders" ".CSV" eq_refl) as [H _].
  rewrite H; [reflexivity|by left].
Defined.

Lemma load_uploaded_file_unsupported_witness :
  load_uploaded_file (λ f : string, f) (λ _, Return "frame read as CSV")
    (λ _ _, Raise (OtherError "XLRDError" "not an Excel file"))
    (λ _ : string, []) (λ df, df) "notes.json" =
  Raise (ValueError unsupported_message).
Proof.
  apply (load_uploaded_file_unsupported (λ f : string, f)
           (λ _, Return "frame read as CSV")
           (λ _ _, Raise (OtherError "XLRDError" "not an Excel file"))
           (λ _ : string, []) (λ df, df) "notes.json").
  apply (not_supported_check (λ f : string, f) "notes.json"); reflexivity.
Defined.

Lemma load_data_failures_witness :
  load_data (λ f : string, f) (λ p, p) (λ _, false) (λ _, ".xls")
    (λ _, Return "frame read as CSV")
    (λ _ _, Raise (OtherError "XLRDError" "not an Excel file"))
    (λ _ : string, []) (λ df, df) None "data/Superstore.xls" =
  Raise (FileNotFoundError (not_found_message "data/Superstore.xls")).
Proof.
  apply (load_data_failures (λ f : string, f) (λ p, p) (λ _, false)
           (λ _, ".xls") (λ _, Return "frame read as CSV")
           (λ _ _, Raise (OtherError "XLRDError" "not an Excel file"))
           (λ _ : string, []) (λ df, df) None "data/Superstore.xls");
    reflexivity.
Defined.

(** ** The order of the time series *)

Lemma compare_app_prefix (s a b : string) :
  String.compare (s ++ a) (s ++ b) = String.compare a b.
Proof.
  induction s as [|c s IH]; [done|].
  rewrite !append_String. simpl.
  unfold Ascii.compare. by rewrite N.compare_refl.
Qed.

Lemma compare_app_Lt (s1 s2 t1 t2 : string) :
  String.length s1 = String.length s2 →
  String.compare s1 s2 = Lt →
  String.compare (s1 ++ t1) (s2 ++ t2) = Lt.
Proof.
  revert s2. induction s1 as [|c1 s1 IH]; intros [|c2 s2]; try done.
  rewrite !append_String. simpl. intros [= Hlen].
  destruct (Ascii.compare c1 c2); [by apply IH|done..].
Qed.

Lemma compare_Lt_trans (a b c : string) :
  String.compare a b = Lt → String.compare b c = Lt →
  String.compare a c = Lt.
Proof.
  intros Hab Hbc.
  assert (Hle : str_le a c).
  { trans b; unfold str_le, String.leb; by rewrite ?Hab, ?Hbc. }
  unfold str_le, String.leb in Hle.
  destruct (String.compare a c) eqn:Hac; [|done..].
  apply String.compare_eq_iff in Hac as ->.
  rewrite String.compare_antisym, Hbc in Hab. done.
Qed.

Lemma year_steps : year_steps_ok = true.
Proof. vm_compute. reflexivity. Qed.

Lemma year_steps_from_step (count : nat) (y0 y : Z) :
  year_steps_from count y0 = true →
  y0 ≤ y < y0 + Z.of_nat count → year_step_ok y = true.
Proof.
  revert y0. induction count as [|count IH]; intros y0 H Hy; [lia|].
  cbn [year_steps_from] in H. apply andb_true_iff in H as [H0 H].
  destruct (decide (y = y0)) as [->|Hne]; [exact H0|].
  apply (IH (y0 + 1) H). lia.
Qed.

Lemma fmt_year_step (y : Z) :
  1000 ≤ y < 9999 →
  String.length (fmt_year y) = 4%nat ∧
  String.length (fmt_year (y + 1)) = 4%nat ∧
  String.compare (fmt_year y) (fmt_year (y + 1)) = Lt.
Proof.
  intros Hy.
  assert (H : year_step_ok y = true).
  { apply (year_steps_from_step (Z.to_nat 8999) 1000 y year_steps).
    rewrite Z2Nat.id; lia. }
  unfold year_step_ok in H.
  apply andb_true_iff in H as [H Hlt]. apply andb_true_iff in H as [L1 L2].
  apply Nat.eqb_eq in L1, L2. split; [exact L1|]. split; [exact L2|].
  unfold String.ltb in Hlt.
  destruct (String.compare (fmt_year y) (fmt_year (y + 1)));
    [discriminate|reflexivity|discriminate].
Qed.

Lemma fmt_year_lt (y1 y2 : Z) :
  1000 ≤ y1 → y1 < y2 → y2 ≤ 9999 →
  String.length (fmt_year y1) = String.length (fmt_year y2) ∧
  String.compare (fmt_year y1) (fmt_year y2) = Lt.
Proof.
  intros H1 Hlt H2.
  assert (K : ∀ k : nat, y1 + 1 + Z.of_nat k ≤ 9999 →
            String.length (fmt_year y1) = 4%nat ∧
            String.length (fmt_year (y1 + 1 + Z.of_nat k)) = 4%nat ∧
            String.compare (fmt_year y1) (fmt_year (y1 + 1 + Z.of_nat k))
            = Lt).
  { induction k as [|k IH]; intros Hk.
    - rewrite Z.add_0_r. apply fmt_year_step. lia.
    - destruct IH as (L1 & L2 & C); [lia|].
      replace (y1 + 1 + Z.of_nat (S k)) with (y1 + 1 + Z.of_nat k + 1) by lia.
      destruct (fmt_year_step (y1 + 1 + Z.of_nat k)) as (_ & L3 & C');
        [lia|].
      eauto using compare_Lt_trans. }
  destruct (K (Z.to_nat (y2 - y1 - 1))) as (L1 & L2 & C).
  - rewrite Z2Nat.id by lia. lia.
  - rewrite Z2Nat.id in L2, C by lia.
    replace (y1 + 1 + (y2 - y1 - 1)) with y2 in L2, C by lia.
    split; [congruence|done].
Qed.

(** The labels compare by the year and then by the abbreviated name of the
    month as a string. *)
Lemma strftime_Y_b_compare (p q : Period) :
  1000 ≤ p_year p ≤ 9999 → 1000 ≤ p_year q ≤ 9999 →
  String.compare (strftime_Y_b p) (strftime_Y_b q) =
  lex (p_year p ?= p_year q)
      (String.compare (month_abbr (p_month p)) (month_abbr (p_month q))).
Proof.
  intros Hp Hq. unfold strftime_Y_b.
  destruct (Z.compare_spec (p_year p) (p_year q)) as [E|Hlt|Hgt]; simpl.
  - rewrite E. by rewrite !compare_app_prefix.
  - destruct (fmt_year_lt (p_year p) (p_year q)) as [L C]; [lia..|].
    by apply compare_app_Lt.
  - destruct (fmt_year_lt (p_year q) (p_year p)) as [L C]; [lia..|].
    rewrite String.compare_antisym.
    by rewrite (compare_app_Lt _ _ _ _ L C).
Qed.

Lemma Sorted_lookup_le (l : list string) (i j : nat) (a b : string) :
  Sorted str_le l → (i < j)%nat → l !! i = Some a → l !! j = Some b →
  str_le a b.
Proof.
  intros Hs%Sorted_StronglySorted; [|apply _]. revert i j.
  induction Hs as [|x l Hs IH Hall]; intros i j Hij Hi Hj; [done|].
  destruct j as [|j]; [lia|]. destruct i as [|i]; simpl in *.
  - injection Hi as <-. rewrite Forall_forall in Hall.
    apply Hall. by eapply list_elem_of_lookup_2.
  - apply (IH i j); [lia|done..].
Qed.

(** X20. The time series lists the months by year and, within a year, by
    the abbreviated name of the month in alphabetical order (Apr, Aug, Dec,
    Feb, Jan, ...): of two rows, for four-digit years, the earlier one is
    of an earlier year, or of the same year and of a month whose
    abbreviation comes first as a string. *)
Theorem linechart_order (fdf : DataFrame) (i j : nat) (p q : Period) (v w : Z) :
  1000 ≤ p_year p ≤ 9999 → 1000 ≤ p_year q ≤ 9999 →
  (i < j)%nat →
  linechart fdf !! i = Some (strftime_Y_b p, v) →
  linechart fdf !! j = Some (strftime_Y_b q, w) →
  p_year p < p_year q ∨
  (p_year p = p_year q ∧
   String.compare (month_abbr (p_month p)) (month_abbr (p_month q)) = Lt).
Proof.
  intros Hp Hq Hij Hi Hj.
  assert (Li : (linechart fdf).*1 !! i = Some (strftime_Y_b p)).
  { by rewrite list_lookup_fmap, Hi. }
  assert (Lj : (linechart fdf).*1 !! j = Some (strftime_Y_b q)).
  { by rewrite list_lookup_fmap, Hj. }
  destruct (linechart_labels fdf) as (Hnd & Hs & _).
  pose proof (Sorted_lookup_le _ i j _ _ Hs Hij Li Lj) as Hle.
  assert (Hne : strftime_Y_b p ≠ strftime_Y_b q).
  { intros E. rewrite <- E in Lj.
    pose proof (NoDup_lookup _ i j _ Hnd Li Lj). lia. }
  unfold str_le, String.leb in Hle.
  rewrite strftime_Y_b_compare in Hle by done.
  destruct (Z.compare_spec (p_year p) (p_year q)) as [E|Hlt|Hgt];
    simpl in Hle; [|by left|done].
  right. split; [done|].
  destruct (String.compare _ _) eqn:C; [|done..].
  apply String.compare_eq_iff, month_abbr_inj in C.
  exfalso. apply Hne. destruct p, q; simpl in *. by subst.
Qed.

Lemma linechart_order_witness :
  2024 < 2024 ∨
  (2024 = 2024 ∧ String.compare (month_abbr Feb) (month_abbr Jan) = Lt).
Proof.
  apply (linechart_order sample 0 1 {| p_year := 2024; p_month := Feb |}
           {| p_year := 2024; p_month := Jan |} 200 150);
    simpl; (lia || reflexivity).
Defined.
